(** * Order aggregate store: a shallow embedding of [main.py]

    The program is a FastAPI application over two SQLModel tables, [Order]
    and [OrderProduct].  Every route handler receives a session from
    [get_session], talks to the relational store through it and returns a
    Python value that FastAPI turns into the response body.

    The embedding has three layers:
    - the tables and the statements the session issues (INSERT, UPDATE,
      DELETE, SELECT) as functions on a [Store];
    - the session as a state-and-exception monad [M] over the committed
      store and the open transaction;
    - the five route handlers, written in [M] statement by statement. *)

From Stdlib Require Import ZArith List String Bool Lia.
From Stdlib Require Import Floats.PrimFloat.
Import ListNotations.

#[local] Set Warnings "-inexact-float,-register-all".
#[local] Open Scope string_scope.
#[local] Open Scope Z_scope.

(* ===================================================================== *)
(** ** Data model *)
(* ===================================================================== *)

(** Python's [int] is unbounded: [Z].  Python's [float] is a binary64:
    a primitive float.  [str] is [string]. *)

(** [class OrderProduct(SQLModel, table=True)].  [id] is declared
    [Optional[int]] with default [None]; it is [None] only between the
    constructor call and the INSERT, and a row of the table always carries
    its key.  The record is the row. *)
Module OrderProduct.
Record t : Type := mk
  { id : Z;
    order_id : Z;
    product_id : Z;
    quantity : Z;
    unit_price : float }.
End OrderProduct.

(** [class Order(SQLModel, table=True)]. *)
Module Order.
Record t : Type := mk
  { id : Z;
    order_number : string;
    date : string;
    final_price : float }.
End Order.

(** [class OrderProductSchema(SQLModel)]. *)
Module OrderProductSchema.
Record t : Type := mk
  { product_id : Z;
    quantity : Z;
    unit_price : float;
    name : option string }.
End OrderProductSchema.

(** [class OrderSchema(SQLModel)]. *)
Module OrderSchema.
Record t : Type := mk
  { order_number : string;
    date : string;
    final_price : float;
    products : list OrderProductSchema.t }.
End OrderSchema.

(** [class OrderResponse(SQLModel)].  [products: List[OrderProduct]] takes
    [OrderProduct] instances and keeps a copy of each.  An instance read by
    a SELECT has its columns loaded and the copy is the row: [t].  An
    instance that was committed and not read since has no column loaded,
    and the copy has none either; [over] leaves open what a copy is. *)
Module OrderResponse.
Record over (P : Type) : Type := mk
  { id : Z;
    order_number : string;
    date : string;
    final_price : float;
    products : list P }.
Arguments mk {P} _ _ _ _ _.
Arguments id {P} _.
Arguments order_number {P} _.
Arguments date {P} _.
Arguments final_price {P} _.
Arguments products {P} _.
Definition t : Type := over OrderProduct.t.
End OrderResponse.

(** Python values that the handlers build by hand ([dict] and [list]
    literals) and the bodies FastAPI sends.  [VObj] is an [OrderProduct]
    instance placed in a dict as it is ([create_order] does that). *)
Inductive Value : Type :=
| VNone
| VInt (z : Z)
| VFloat (f : float)
| VStr (s : string)
| VList (l : list Value)
| VDict (d : list (string * Value))
| VObj (p : OrderProduct.t).

(** [d[key]] on a dict literal: the first binding of [key]. *)
Fixpoint dict_get (key : string) (d : list (string * Value)) : option Value :=
  match d with
  | [] => None
  | (k, v) :: d' => if String.eqb k key then Some v else dict_get key d'
  end.

(** The keys of a body, when the body is an object. *)
Definition keys (v : Value) : list string :=
  match v with
  | VDict d => map fst d
  | _ => []
  end.

(** [product.dict()]: the columns of the row, in declaration order. *)
Definition OrderProduct_dict (p : OrderProduct.t) : Value :=
  VDict [ ("id", VInt (OrderProduct.id p));
          ("order_id", VInt (OrderProduct.order_id p));
          ("product_id", VInt (OrderProduct.product_id p));
          ("quantity", VInt (OrderProduct.quantity p));
          ("unit_price", VFloat (OrderProduct.unit_price p)) ].

(* ===================================================================== *)
(** ** The relational store *)
(* ===================================================================== *)

(** The two tables, rows in insertion order, and the AUTO_INCREMENT
    counter of each primary key. *)
Record Store : Type := mkStore
  { orders : list Order.t;
    order_products : list OrderProduct.t;
    order_seq : Z;
    order_product_seq : Z }.

(** What [create_db_and_tables] leaves on a fresh database. *)
Definition empty_store : Store :=
  {| orders := []; order_products := []; order_seq := 1; order_product_seq := 1 |}.

(** What can reach the caller of a handler.  [HTTPException] is raised by
    the handlers themselves; [IntegrityError] is the store refusing a
    statement for a constraint ([unique=True] on [order_number],
    [foreign_key="order.id"] on [order_id], NOT NULL on every column);
    [OverflowError] is the driver refusing an integer that does not fit
    the INTEGER column it is bound to; [OperationalError] is the
    store refusing a COMMIT; [InvalidRequestError] is [session.refresh] on
    a row that is gone; [ResponseValidationError] is FastAPI failing to fit
    a return value into the route's [response_model]. *)
Inductive Error : Type :=
| HTTPException (status_code : Z) (detail : string)
| IntegrityError
| OverflowError
| OperationalError
| InvalidRequestError
| ResponseValidationError.

(** *** SELECT *)

(** [select(Order).where(Order.id == order_id)] / [session.get(Order, order_id)]. *)
Definition has_id (order_id : Z) (o : Order.t) : bool :=
  Order.id o =? order_id.

(** [select(OrderProduct).where(OrderProduct.order_id == order_id)]. *)
Definition of_order (order_id : Z) (p : OrderProduct.t) : bool :=
  OrderProduct.order_id p =? order_id.

Definition select_order (order_id : Z) (st : Store) : option Order.t :=
  find (has_id order_id) (orders st).

Definition select_products (order_id : Z) (st : Store) : list OrderProduct.t :=
  filter (of_order order_id) (order_products st).

(** *** INSERT *)

(** The unique index on [order_number]: is the number held by a row other
    than the row [except]? ([except] is [None] for an INSERT.) *)
Definition number_taken (number : string) (except : option Z) (st : Store) : bool :=
  existsb
    (fun o =>
       String.eqb (Order.order_number o) number
       && match except with
          | Some k => negb (Order.id o =? k)
          | None => true
          end)
    (orders st).

(** What a column takes.  An INTEGER column holds a signed 64-bit
    integer, and a Python [int] outside that range cannot be bound to it.
    A [float] column is NOT NULL and a NaN is stored as NULL. *)
Definition fits_integer (z : Z) : bool :=
  (- 2 ^ 63 <=? z) && (z <? 2 ^ 63).

Definition is_null (f : float) : bool := PrimFloat.is_nan f.

(** INSERT INTO order: the store generates the key.  The row is refused
    when [final_price] is stored as NULL or the number is taken. *)
Definition insert_order (order_number date : string) (final_price : float)
    (st : Store) : Error + Order.t * Store :=
  if is_null final_price || number_taken order_number None st then inl IntegrityError
  else
    let o := {| Order.id := order_seq st;
                Order.order_number := order_number;
                Order.date := date;
                Order.final_price := final_price |} in
    inr (o, {| orders := orders st ++ [o];
               order_products := order_products st;
               order_seq := order_seq st + 1;
               order_product_seq := order_product_seq st |}).

(** INSERT INTO orderproduct: [product_id] and [quantity] must fit their
    columns, [unit_price] must not be stored as NULL, and the foreign key
    must name an order.  ([order_id] is the key of a stored order in every
    call the handlers make.) *)
Definition insert_product (order_id product_id quantity : Z) (unit_price : float)
    (st : Store) : Error + OrderProduct.t * Store :=
  if negb (fits_integer product_id && fits_integer quantity) then inl OverflowError
  else if is_null unit_price then inl IntegrityError
  else if existsb (has_id order_id) (orders st) then
    let p := {| OrderProduct.id := order_product_seq st;
                OrderProduct.order_id := order_id;
                OrderProduct.product_id := product_id;
                OrderProduct.quantity := quantity;
                OrderProduct.unit_price := unit_price |} in
    inr (p, {| orders := orders st;
               order_products := order_products st ++ [p];
               order_seq := order_seq st;
               order_product_seq := order_product_seq st + 1 |})
  else inl IntegrityError.

(** *** UPDATE *)

(** UPDATE order SET order_number, final_price, date WHERE id = order_id. *)
Definition set_fields (order_id : Z) (order_number : string) (final_price : float)
    (date : string) (o : Order.t) : Order.t :=
  if has_id order_id o then
    {| Order.id := Order.id o;
       Order.order_number := order_number;
       Order.date := date;
       Order.final_price := final_price |}
  else o.

Definition update_order_row (order_id : Z) (order_number : string)
    (final_price : float) (date : string) (st : Store) : Error + Store :=
  if is_null final_price || number_taken order_number (Some order_id) st
  then inl IntegrityError
  else
    inr {| orders := map (set_fields order_id order_number final_price date) (orders st);
           order_products := order_products st;
           order_seq := order_seq st;
           order_product_seq := order_product_seq st |}.

(** *** DELETE *)

(** DELETE FROM orderproduct WHERE order_id = order_id. *)
Definition delete_products_of (order_id : Z) (st : Store) : Store :=
  {| orders := orders st;
     order_products := filter (fun p => negb (of_order order_id p)) (order_products st);
     order_seq := order_seq st;
     order_product_seq := order_product_seq st |}.

(** DELETE FROM orderproduct WHERE id = id. *)
Definition delete_product_row (id : Z) (st : Store) : Store :=
  {| orders := orders st;
     order_products := filter (fun p => negb (OrderProduct.id p =? id)) (order_products st);
     order_seq := order_seq st;
     order_product_seq := order_product_seq st |}.

(** DELETE FROM order WHERE id = id: refused while a line item still
    references the order. *)
Definition delete_order_row (id : Z) (st : Store) : Error + Store :=
  if existsb (of_order id) (order_products st) then inl IntegrityError
  else
    inr {| orders := filter (fun o => negb (has_id id o)) (orders st);
           order_products := order_products st;
           order_seq := order_seq st;
           order_product_seq := order_product_seq st |}.

(* ===================================================================== *)
(** ** The session *)
(* ===================================================================== *)

(** A session holds the store as last committed ([db]) and the store as
    the open transaction sees it ([tx]).  [faults] is the environment:
    one entry per COMMIT the request will attempt, [true] when the store
    refuses that COMMIT; past the end of the list the store accepts.

    [session.add] and attribute assignment are modelled at their flush:
    the statement runs in the open transaction at once.  No handler reads
    between an [add] and the next flush, and no handler catches an
    exception, so the moment of the flush cannot be observed. *)
Record Session : Type := mkSession
  { db : Store;
    tx : Store;
    faults : list bool }.

Inductive Outcome (A : Type) : Type :=
| Return (a : A)
| Raised (e : Error).
Arguments Return {A} a.
Arguments Raised {A} e.

Definition M (A : Type) : Type := Session -> Outcome A * Session.

Definition ret {A : Type} (a : A) : M A := fun s => (Return a, s).

Definition raise {A : Type} (e : Error) : M A := fun s => (Raised e, s).

Definition bind {A B : Type} (m : M A) (f : A -> M B) : M B :=
  fun s =>
    match m s with
    | (Return a, s') => f a s'
    | (Raised e, s') => (Raised e, s')
    end.

Declare Scope session_scope.
Delimit Scope session_scope with session.
Notation "x <- m ;; k" := (bind m (fun x => k))
  (at level 61, m at next level, right associativity) : session_scope.
Notation "m ;; k" := (bind m (fun _ => k))
  (at level 61, right associativity) : session_scope.
#[local] Open Scope session_scope.

(** A statement that reads the transaction's view. *)
Definition query {A : Type} (q : Store -> A) : M A :=
  fun s => (Return (q (tx s)), s).

(** A statement that changes the transaction's view, or is refused. *)
Definition execute {A : Type} (stmt : Store -> Error + A * Store) : M A :=
  fun s =>
    match stmt (tx s) with
    | inl e => (Raised e, s)
    | inr (a, st) => (Return a, {| db := db s; tx := st; faults := faults s |})
    end.

(** [session.commit()]. *)
Definition commit : M unit :=
  fun s =>
    match faults s with
    | true :: rest => (Raised OperationalError, {| db := db s; tx := db s; faults := rest |})
    | false :: rest => (Return tt, {| db := tx s; tx := tx s; faults := rest |})
    | [] => (Return tt, {| db := tx s; tx := tx s; faults := [] |})
    end.

(** [for x in xs: ... ; acc.append(y)]. *)
Fixpoint for_each {A B : Type} (body : A -> M B) (xs : list A) : M (list B) :=
  match xs with
  | [] => ret []
  | x :: xs' =>
      y <- body x ;;
      ys <- for_each body xs' ;;
      ret (y :: ys)
  end.

(** [session.exec(select(Order)).all()]. *)
Definition exec_select_all_orders : M (list Order.t) := query orders.

(** [session.exec(select(Order).where(Order.id == order_id)).first()] and
    [session.get(Order, order_id)]. *)
Definition session_get (order_id : Z) : M (option Order.t) :=
  query (select_order order_id).

(** [session.exec(select(OrderProduct).where(OrderProduct.order_id == order_id)).all()]. *)
Definition exec_select_products (order_id : Z) : M (list OrderProduct.t) :=
  query (select_products order_id).

(** [session.add(Order(order_number=.., date=.., final_price=..))]. *)
Definition add_Order (order_number date : string) (final_price : float) : M Order.t :=
  execute (insert_order order_number date final_price).

(** [session.add(OrderProduct(order_id=.., product_id=.., quantity=.., unit_price=..))]. *)
Definition add_OrderProduct (order_id product_id quantity : Z) (unit_price : float)
    : M OrderProduct.t :=
  execute (insert_product order_id product_id quantity unit_price).

(** [order.order_number = ..; order.final_price = ..; order.date = ..]. *)
Definition assign_Order (order_id : Z) (order_number : string) (final_price : float)
    (date : string) : M unit :=
  execute (fun st =>
             match update_order_row order_id order_number final_price date st with
             | inl e => inl e
             | inr st' => inr (tt, st')
             end).

(** [session.query(OrderProduct).filter(OrderProduct.order_id == order_id).delete()]. *)
Definition query_delete_products (order_id : Z) : M unit :=
  execute (fun st => inr (tt, delete_products_of order_id st)).

(** [session.delete(product)]. *)
Definition session_delete_product (p : OrderProduct.t) : M unit :=
  execute (fun st => inr (tt, delete_product_row (OrderProduct.id p) st)).

(** [session.delete(order)]. *)
Definition session_delete_order (o : Order.t) : M unit :=
  execute (fun st =>
             match delete_order_row (Order.id o) st with
             | inl e => inl e
             | inr st' => inr (tt, st')
             end).

(** [session.refresh(order)]: the row as the store has it now. *)
Definition session_refresh (o : Order.t) : M Order.t :=
  r <- session_get (Order.id o) ;;
  match r with
  | Some o' => ret o'
  | None => raise InvalidRequestError
  end.

(** [get_session]: [with Session(engine) as session: yield session].  The
    handler runs on a session opened on the store; when the block is left,
    by return or by exception, what was not committed is dropped. *)
Definition get_session {A : Type} (handler : M A) (faults : list bool) (st : Store)
    : Outcome A * Store :=
  let (r, s) := handler {| db := st; tx := st; faults := faults |} in
  (r, db s).

(** The store that accepts every COMMIT. *)
Definition reliable : list bool := [].

(** Does the store accept the next COMMIT? *)
Definition accepts_commit (faults : list bool) : bool :=
  match faults with
  | true :: _ => false
  | _ => true
  end.

(* ===================================================================== *)
(** ** The route handlers *)
(* ===================================================================== *)

(** [@app.get("/orders")]. *)
Definition get_orders : M (list Value) :=
  orders <- exec_select_all_orders ;;
  for_each
    (fun order =>
       products <- exec_select_products (Order.id order) ;;
       ret (VDict [ ("id", VInt (Order.id order));
                    ("order_number", VStr (Order.order_number order));
                    ("date", VStr (Order.date order));
                    ("final_price", VFloat (Order.final_price order));
                    ("products", VList (map OrderProduct_dict products)) ]))
    orders.

(** [@app.get("/orders/{order_id}", response_model=OrderResponse)]. *)
Definition get_order (order_id : Z) : M OrderResponse.t :=
  order <- session_get order_id ;;
  match order with
  | None => raise (HTTPException 404 "Order not found")
  | Some order =>
      products <- exec_select_products order_id ;;
      ret {| OrderResponse.id := Order.id order;
             OrderResponse.order_number := Order.order_number order;
             OrderResponse.date := Order.date order;
             OrderResponse.final_price := Order.final_price order;
             OrderResponse.products := products |}
  end.

(** The body of [create_order], before FastAPI applies the route's
    [response_model]. *)
Definition create_order (order : OrderSchema.t) : M Value :=
  db_order <- add_Order (OrderSchema.order_number order)
                        (OrderSchema.date order)
                        (OrderSchema.final_price order) ;;
  commit ;;
  db_order <- session_refresh db_order ;;
  db_products <-
    for_each
      (fun product =>
         add_OrderProduct (Order.id db_order)
                          (OrderProductSchema.product_id product)
                          (OrderProductSchema.quantity product)
                          (OrderProductSchema.unit_price product))
      (OrderSchema.products order) ;;
  commit ;;
  ret (VDict [ ("id", VInt (Order.id db_order));
               ("order_number", VStr (Order.order_number db_order));
               ("date", VStr (Order.date db_order));
               ("final_price", VFloat (Order.final_price db_order));
               ("products", VList (map VObj db_products)) ]).

(** What [OrderResponse(products=db_products)] keeps of a line item in
    [update_order]: [session.commit()] has expired every instance of the
    session and [session.refresh(order)] reloads [order] alone, so the copy
    of a line item holds no attribute.  It is sent as [{}]. *)
Definition expired_copy (p : OrderProduct.t) : Value := VDict [].

(** [@app.put("/orders/{order_id}", response_model=OrderResponse)]. *)
Definition update_order (order_id : Z) (order_data : OrderSchema.t)
    : M (OrderResponse.over Value) :=
  order <- session_get order_id ;;
  match order with
  | None => raise (HTTPException 404 "Order not found")
  | Some order =>
      assign_Order order_id
                   (OrderSchema.order_number order_data)
                   (OrderSchema.final_price order_data)
                   (OrderSchema.date order_data) ;;
      query_delete_products order_id ;;
      db_products <-
        for_each
          (fun product =>
             add_OrderProduct order_id
                              (OrderProductSchema.product_id product)
                              (OrderProductSchema.quantity product)
                              (OrderProductSchema.unit_price product))
          (OrderSchema.products order_data) ;;
      commit ;;
      order <- session_refresh order ;;
      ret {| OrderResponse.id := Order.id order;
             OrderResponse.order_number := Order.order_number order;
             OrderResponse.date := Order.date order;
             OrderResponse.final_price := Order.final_price order;
             OrderResponse.products := map expired_copy db_products |}
  end.

(** [@app.delete("/orders/{order_id}")]. *)
Definition delete_order (order_id : Z) : M Value :=
  order <- session_get order_id ;;
  match order with
  | None => raise (HTTPException 404 "Order not found")
  | Some order =>
      products <- exec_select_products order_id ;;
      for_each session_delete_product products ;;
      session_delete_order order ;;
      commit ;;
      ret (VDict [ ("message", VStr "Order deleted successfully") ])
  end.

(* ===================================================================== *)
(** ** Response models *)
(* ===================================================================== *)

(** FastAPI fits what a handler returns into the route's [response_model]
    and sends the fields of that model, no others.  [get_order] and
    [update_order] return an [OrderResponse] under
    [response_model=OrderResponse]; [get_orders] and [delete_order] declare
    no model.  Only [create_order] returns one shape (a dict) under another
    model ([OrderSchema]). *)

Definition as_int (v : Value) : option Z :=
  match v with VInt z => Some z | _ => None end.

Definition as_float (v : Value) : option float :=
  match v with VFloat f => Some f | _ => None end.

Definition as_str (v : Value) : option string :=
  match v with VStr s => Some s | _ => None end.

(** [name: Optional[str] = None]: an absent or [None] value is [None]. *)
Definition as_optional_str (v : option Value) : option (option string) :=
  match v with
  | None | Some VNone => Some None
  | Some (VStr s) => Some (Some s)
  | Some _ => None
  end.

(** [OrderProductSchema] from a dict, or from an object by its attributes
    ([orm_mode]); an [OrderProduct] has no attribute [name]. *)
Definition OrderProductSchema_validate (v : Value) : option OrderProductSchema.t :=
  match v with
  | VObj p =>
      Some {| OrderProductSchema.product_id := OrderProduct.product_id p;
              OrderProductSchema.quantity := OrderProduct.quantity p;
              OrderProductSchema.unit_price := OrderProduct.unit_price p;
              OrderProductSchema.name := None |}
  | VDict d =>
      match option_map as_int (dict_get "product_id" d),
            option_map as_int (dict_get "quantity" d),
            option_map as_float (dict_get "unit_price" d),
            as_optional_str (dict_get "name" d) with
      | Some (Some product_id), Some (Some quantity), Some (Some unit_price), Some name =>
          Some {| OrderProductSchema.product_id := product_id;
                  OrderProductSchema.quantity := quantity;
                  OrderProductSchema.unit_price := unit_price;
                  OrderProductSchema.name := name |}
      | _, _, _, _ => None
      end
  | _ => None
  end.

Fixpoint validate_all {A : Type} (validate : Value -> option A) (l : list Value)
    : option (list A) :=
  match l with
  | [] => Some []
  | v :: l' =>
      match validate v, validate_all validate l' with
      | Some a, Some r => Some (a :: r)
      | _, _ => None
      end
  end.

Definition OrderSchema_validate (v : Value) : option OrderSchema.t :=
  match v with
  | VDict d =>
      match option_map as_str (dict_get "order_number" d),
            option_map as_str (dict_get "date" d),
            option_map as_float (dict_get "final_price" d),
            dict_get "products" d with
      | Some (Some order_number), Some (Some date), Some (Some final_price),
        Some (VList l) =>
          match validate_all OrderProductSchema_validate l with
          | Some products =>
              Some {| OrderSchema.order_number := order_number;
                      OrderSchema.date := date;
                      OrderSchema.final_price := final_price;
                      OrderSchema.products := products |}
          | None => None
          end
      | _, _, _, _ => None
      end
  | _ => None
  end.

Definition optional_str (s : option string) : Value :=
  match s with Some s => VStr s | None => VNone end.

Definition OrderProductSchema_body (p : OrderProductSchema.t) : Value :=
  VDict [ ("product_id", VInt (OrderProductSchema.product_id p));
          ("quantity", VInt (OrderProductSchema.quantity p));
          ("unit_price", VFloat (OrderProductSchema.unit_price p));
          ("name", optional_str (OrderProductSchema.name p)) ].

Definition OrderSchema_body (o : OrderSchema.t) : Value :=
  VDict [ ("order_number", VStr (OrderSchema.order_number o));
          ("date", VStr (OrderSchema.date o));
          ("final_price", VFloat (OrderSchema.final_price o));
          ("products", VList (map OrderProductSchema_body (OrderSchema.products o))) ].

(** What a route with [response_model=OrderSchema] sends for a return value. *)
Definition response_model_OrderSchema (r : Outcome Value) : Outcome Value :=
  match r with
  | Return v =>
      match OrderSchema_validate v with
      | Some o => Return (OrderSchema_body o)
      | None => Raised ResponseValidationError
      end
  | Raised e => Raised e
  end.

(** [@app.post("/orders", response_model=OrderSchema)]: the route as the
    client sees it. *)
Definition post_orders (order : OrderSchema.t) (faults : list bool) (st : Store)
    : Outcome Value * Store :=
  let (r, st') := get_session (create_order order) faults st in
  (response_model_OrderSchema r, st').

(* ===================================================================== *)
(** ** Requests *)
(* ===================================================================== *)

(** The five routes of the application. *)
Inductive Request : Type :=
| GET_orders
| GET_order (order_id : Z)
| POST_orders (order : OrderSchema.t)
| PUT_order (order_id : Z) (order_data : OrderSchema.t)
| DELETE_order (order_id : Z).

(** The store a request leaves, given the COMMITs the store refuses. *)
Definition serve (r : Request) (faults : list bool) (st : Store) : Store :=
  match r with
  | GET_orders => snd (get_session get_orders faults st)
  | GET_order order_id => snd (get_session (get_order order_id) faults st)
  | POST_orders order => snd (post_orders order faults st)
  | PUT_order order_id order_data =>
      snd (get_session (update_order order_id order_data) faults st)
  | DELETE_order order_id => snd (get_session (delete_order order_id) faults st)
  end.

(** The stores the application can be in: the fresh database, and what a
    request leaves of such a store. *)
Inductive reachable : Store -> Prop :=
| reachable_fresh : reachable empty_store
| reachable_serve (st : Store) (r : Request) (faults : list bool) :
    reachable st -> reachable (serve r faults st).

(* ===================================================================== *)
(** ** What the handlers leave in the store *)
(* ===================================================================== *)

(** The rows a loop of [session.add(OrderProduct(order_id=.., ...))] inserts
    for the line items of a request, keys generated from [next] on. *)
Fixpoint new_rows (order_id next : Z) (items : list OrderProductSchema.t)
    : list OrderProduct.t :=
  match items with
  | [] => []
  | item :: items' =>
      {| OrderProduct.id := next;
         OrderProduct.order_id := order_id;
         OrderProduct.product_id := OrderProductSchema.product_id item;
         OrderProduct.quantity := OrderProductSchema.quantity item;
         OrderProduct.unit_price := OrderProductSchema.unit_price item |}
      :: new_rows order_id (next + 1) items'
  end.

Definition append_products (rows : list OrderProduct.t) (st : Store) : Store :=
  {| orders := orders st;
     order_products := order_products st ++ rows;
     order_seq := order_seq st;
     order_product_seq := order_product_seq st + Z.of_nat (List.length rows) |}.

(** The order row of a create request. *)
Definition created_order (order : OrderSchema.t) (st : Store) : Order.t :=
  {| Order.id := order_seq st;
     Order.order_number := OrderSchema.order_number order;
     Order.date := OrderSchema.date order;
     Order.final_price := OrderSchema.final_price order |}.

(** The store after the first commit of [create_order]. *)
Definition store_with_order (order : OrderSchema.t) (st : Store) : Store :=
  {| orders := orders st ++ [created_order order st];
     order_products := order_products st;
     order_seq := order_seq st + 1;
     order_product_seq := order_product_seq st |}.

Definition created_products (order : OrderSchema.t) (st : Store) : list OrderProduct.t :=
  new_rows (order_seq st) (order_product_seq st) (OrderSchema.products order).

(** The store after the second commit of [create_order]. *)
Definition store_created (order : OrderSchema.t) (st : Store) : Store :=
  append_products (created_products order st) (store_with_order order st).

(** The dict [create_order] returns. *)
Definition created_dict (order : OrderSchema.t) (st : Store) : Value :=
  VDict [ ("id", VInt (order_seq st));
          ("order_number", VStr (OrderSchema.order_number order));
          ("date", VStr (OrderSchema.date order));
          ("final_price", VFloat (OrderSchema.final_price order));
          ("products", VList (map VObj (created_products order st))) ].

(** The body the route sends for the dict [create_order] returns. *)
Definition created_body (order : OrderSchema.t) (st : Store) : Value :=
  VDict [ ("order_number", VStr (OrderSchema.order_number order));
          ("date", VStr (OrderSchema.date order));
          ("final_price", VFloat (OrderSchema.final_price order));
          ("products",
           VList (map (fun p =>
                         VDict [ ("product_id", VInt (OrderProduct.product_id p));
                                 ("quantity", VInt (OrderProduct.quantity p));
                                 ("unit_price", VFloat (OrderProduct.unit_price p));
                                 ("name", VNone) ])
                      (created_products order st))) ].

(** The order table after the UPDATE of [update_order]. *)
Definition store_assigned (order_id : Z) (order_data : OrderSchema.t) (st : Store) : Store :=
  {| orders := map (set_fields order_id
                               (OrderSchema.order_number order_data)
                               (OrderSchema.final_price order_data)
                               (OrderSchema.date order_data))
                   (orders st);
     order_products := order_products st;
     order_seq := order_seq st;
     order_product_seq := order_product_seq st |}.

Definition replaced_products (order_id : Z) (order_data : OrderSchema.t) (st : Store)
    : list OrderProduct.t :=
  new_rows order_id (order_product_seq st) (OrderSchema.products order_data).

(** The store after the commit of [update_order]. *)
Definition store_replaced (order_id : Z) (order_data : OrderSchema.t) (st : Store) : Store :=
  append_products (replaced_products order_id order_data st)
                  (delete_products_of order_id (store_assigned order_id order_data st)).

(** The object [update_order] returns. *)
Definition replaced_response (order_id : Z) (order_data : OrderSchema.t) (st : Store)
    : OrderResponse.over Value :=
  {| OrderResponse.id := order_id;
     OrderResponse.order_number := OrderSchema.order_number order_data;
     OrderResponse.date := OrderSchema.date order_data;
     OrderResponse.final_price := OrderSchema.final_price order_data;
     OrderResponse.products :=
       map expired_copy (replaced_products order_id order_data st) |}.

(** Does the store take the values of a line item, of all the line items
    of a request? *)
Definition accepted_item (item : OrderProductSchema.t) : bool :=
  fits_integer (OrderProductSchema.product_id item)
  && fits_integer (OrderProductSchema.quantity item)
  && negb (is_null (OrderProductSchema.unit_price item)).

Definition accepted_items (items : list OrderProductSchema.t) : bool :=
  forallb accepted_item items.

(** What the INSERT of a line item raises for its values, if anything, and
    what the first refused line item of a request raises. *)
Definition item_refusal (item : OrderProductSchema.t) : option Error :=
  if negb (fits_integer (OrderProductSchema.product_id item)
           && fits_integer (OrderProductSchema.quantity item))
  then Some OverflowError
  else if is_null (OrderProductSchema.unit_price item) then Some IntegrityError
  else None.

Fixpoint first_refusal (items : list OrderProductSchema.t) : option Error :=
  match items with
  | [] => None
  | item :: items' =>
      match item_refusal item with
      | Some e => Some e
      | None => first_refusal items'
      end
  end.

(** The store after the commit of [delete_order]. *)
Definition store_deleted (order_id : Z) (st : Store) : Store :=
  {| orders := filter (fun o => negb (has_id order_id o)) (orders st);
     order_products := filter (fun p => negb (of_order order_id p)) (order_products st);
     order_seq := order_seq st;
     order_product_seq := order_product_seq st |}.

(** The dict [delete_order] returns. *)
Definition deleted_message : Value :=
  VDict [ ("message", VStr "Order deleted successfully") ].

(** The dict [get_orders] builds for one order. *)
Definition order_dict (st : Store) (order : Order.t) : Value :=
  VDict [ ("id", VInt (Order.id order));
          ("order_number", VStr (Order.order_number order));
          ("date", VStr (Order.date order));
          ("final_price", VFloat (Order.final_price order));
          ("products", VList (map OrderProduct_dict (select_products (Order.id order) st))) ].

(** The object [get_order] returns for a row. *)
Definition order_response (st : Store) (order : Order.t) : OrderResponse.t :=
  {| OrderResponse.id := Order.id order;
     OrderResponse.order_number := Order.order_number order;
     OrderResponse.date := Order.date order;
     OrderResponse.final_price := Order.final_price order;
     OrderResponse.products := select_products (Order.id order) st |}.

Definition not_found {A : Type} : Outcome A :=
  Raised (HTTPException 404 "Order not found").

(** What a line item says, apart from its keys. *)
Definition row_line (p : OrderProduct.t) : Z * Z * float :=
  (OrderProduct.product_id p, OrderProduct.quantity p, OrderProduct.unit_price p).

Definition item_line (p : OrderProductSchema.t) : Z * Z * float :=
  (OrderProductSchema.product_id p, OrderProductSchema.quantity p,
   OrderProductSchema.unit_price p).

(** [v[key]] when [v] is a dict. *)
Definition value_get (key : string) (v : Value) : option Value :=
  match v with
  | VDict d => dict_get key d
  | _ => None
  end.

(* ===================================================================== *)
(** ** Sample requests and stores *)
(* ===================================================================== *)

(** The request of the specification's example:
    [{order_number:"A1", date:"2024-01-01", final_price:19.98,
      products:[{product_id:1, quantity:2, unit_price:9.99}]}]. *)
Definition order_A1 : OrderSchema.t :=
  {| OrderSchema.order_number := "A1";
     OrderSchema.date := "2024-01-01";
     OrderSchema.final_price := 19.98%float;
     OrderSchema.products :=
       [ {| OrderProductSchema.product_id := 1;
            OrderProductSchema.quantity := 2;
            OrderProductSchema.unit_price := 9.99%float;
            OrderProductSchema.name := None |} ] |}.

(** A second request, with another number and two line items. *)
Definition order_A2 : OrderSchema.t :=
  {| OrderSchema.order_number := "A2";
     OrderSchema.date := "2024-01-02";
     OrderSchema.final_price := 7.5%float;
     OrderSchema.products :=
       [ {| OrderProductSchema.product_id := 7;
            OrderProductSchema.quantity := 1;
            OrderProductSchema.unit_price := 2.5%float;
            OrderProductSchema.name := Some "pen" |};
         {| OrderProductSchema.product_id := 8;
            OrderProductSchema.quantity := 2;
            OrderProductSchema.unit_price := 2.5%float;
            OrderProductSchema.name := None |} ] |}.

(** A third request, with a number of its own and one line item. *)
Definition order_A3 : OrderSchema.t :=
  {| OrderSchema.order_number := "A3";
     OrderSchema.date := "2024-01-03";
     OrderSchema.final_price := 4%float;
     OrderSchema.products :=
       [ {| OrderProductSchema.product_id := 9;
            OrderProductSchema.quantity := 4;
            OrderProductSchema.unit_price := 1%float;
            OrderProductSchema.name := None |} ] |}.

(** [order_A3] with a quantity one past the largest 64-bit integer, and
    [order_A3] with a NaN for [final_price]. *)
Definition order_A3_huge : OrderSchema.t :=
  {| OrderSchema.order_number := "A3";
     OrderSchema.date := "2024-01-03";
     OrderSchema.final_price := 4%float;
     OrderSchema.products :=
       [ {| OrderProductSchema.product_id := 9;
            OrderProductSchema.quantity := 2 ^ 63;
            OrderProductSchema.unit_price := 1%float;
            OrderProductSchema.name := None |} ] |}.


Definition row_A1 : Order.t :=
  {| Order.id := 1; Order.order_number := "A1";
     Order.date := "2024-01-01"; Order.final_price := 19.98%float |}.

Definition row_A2 : Order.t :=
  {| Order.id := 2; Order.order_number := "A2";
     Order.date := "2024-01-02"; Order.final_price := 7.5%float |}.

Definition item_1 : OrderProduct.t :=
  {| OrderProduct.id := 1; OrderProduct.order_id := 1; OrderProduct.product_id := 1;
     OrderProduct.quantity := 2; OrderProduct.unit_price := 9.99%float |}.

Definition item_2 : OrderProduct.t :=
  {| OrderProduct.id := 2; OrderProduct.order_id := 2; OrderProduct.product_id := 7;
     OrderProduct.quantity := 1; OrderProduct.unit_price := 2.5%float |}.

Definition item_3 : OrderProduct.t :=
  {| OrderProduct.id := 3; OrderProduct.order_id := 2; OrderProduct.product_id := 8;
     OrderProduct.quantity := 2; OrderProduct.unit_price := 2.5%float |}.

(** The store after [order_A1] was created on a fresh database. *)
Definition store_A1 : Store :=
  {| orders := [row_A1]; order_products := [item_1];
     order_seq := 2; order_product_seq := 2 |}.

(** The store after [order_A2] was created next. *)
Definition store_A1_A2 : Store :=
  {| orders := [row_A1; row_A2]; order_products := [item_1; item_2; item_3];
     order_seq := 3; order_product_seq := 4 |}.

(** The store in which the order row of [order_A1] stands alone. *)
Definition store_A1_alone : Store :=
  {| orders := [row_A1]; order_products := [];
     order_seq := 2; order_product_seq := 1 |}.

(** The body POST /orders sends for [order_A1]. *)
Definition body_A1 : Value :=
  VDict [ ("order_number", VStr "A1");
          ("date", VStr "2024-01-01");
          ("final_price", VFloat 19.98%float);
          ("products",
           VList [ VDict [ ("product_id", VInt 1);
                           ("quantity", VInt 2);
                           ("unit_price", VFloat 9.99%float);
                           ("name", VNone) ] ]) ].

(* ===================================================================== *)
(** ** The constraints of the schema *)
(* ===================================================================== *)

(** What the table definitions make the store keep: primary keys are
    unique and below the counter that generates them, [order_number] is
    unique, and every line item references an order. *)
Record wf_store (st : Store) : Prop := mk_wf
  { wf_order_pk : NoDup (map Order.id (orders st));
    wf_order_number : NoDup (map Order.order_number (orders st));
    wf_product_pk : NoDup (map OrderProduct.id (order_products st));
    wf_order_seq : Forall (fun o => Order.id o < order_seq st) (orders st);
    wf_product_seq :
      Forall (fun p => OrderProduct.id p < order_product_seq st) (order_products st);
    wf_foreign_key :
      Forall (fun p => In (OrderProduct.order_id p) (map Order.id (orders st)))
             (order_products st) }.

(* ===================================================================== *)
(** ** Tables: selection and keys *)
(* ===================================================================== *)

Lemma has_id_true (order_id : Z) (o : Order.t) :
  has_id order_id o = true <-> Order.id o = order_id.
Proof. unfold has_id. apply Z.eqb_eq. Qed.

Lemma of_order_true (order_id : Z) (p : OrderProduct.t) :
  of_order order_id p = true <-> OrderProduct.order_id p = order_id.
Proof. unfold of_order. apply Z.eqb_eq. Qed.

Lemma select_order_some (order_id : Z) (st : Store) (o : Order.t) :
  select_order order_id st = Some o -> In o (orders st) /\ Order.id o = order_id.
Proof.
  unfold select_order. intros H. apply find_some in H as [Hin Hid].
  split; [assumption | now apply has_id_true].
Qed.

Lemma select_order_none (order_id : Z) (st : Store) :
  select_order order_id st = None <->
  forall o, In o (orders st) -> Order.id o <> order_id.
Proof.
  unfold select_order. split.
  - intros H o Hin Hid. apply (find_none _ _ H) in Hin.
    apply has_id_true in Hid. congruence.
  - intros H. destruct (find (has_id order_id) (orders st)) as [o|] eqn:E; [|reflexivity].
    apply find_some in E as [Hin Hid]. apply has_id_true in Hid.
    now apply H in Hin.
Qed.

(** A key selects the row that carries it, when keys are unique. *)
Lemma find_unique_key (order_id : Z) (l : list Order.t) (o : Order.t) :
  NoDup (map Order.id l) -> In o l -> Order.id o = order_id ->
  find (has_id order_id) l = Some o.
Proof.
  induction l as [|a l IH]; simpl; intros Hnd Hin Hid; [contradiction|].
  apply NoDup_cons_iff in Hnd as [Hnotin Hnd].
  destruct (has_id order_id a) eqn:E.
  - destruct Hin as [->|Hin]; [reflexivity|].
    apply has_id_true in E. exfalso. apply Hnotin.
    rewrite E, <- Hid. now apply in_map.
  - destruct Hin as [->|Hin]; [|now apply IH].
    apply has_id_true in Hid. congruence.
Qed.

Lemma select_order_unique (order_id : Z) (st : Store) (o : Order.t) :
  wf_store st -> In o (orders st) -> Order.id o = order_id ->
  select_order order_id st = Some o.
Proof. intros Hwf. apply find_unique_key, Hwf. Qed.

Lemma existsb_has_id (order_id : Z) (l : list Order.t) :
  existsb (has_id order_id) l = true <-> In order_id (map Order.id l).
Proof.
  rewrite existsb_exists, in_map_iff. split; intros [o [H1 H2]]; exists o.
  - split; [now apply has_id_true | assumption].
  - split; [assumption | now apply has_id_true].
Qed.

Lemma select_products_In (order_id : Z) (st : Store) (p : OrderProduct.t) :
  In p (select_products order_id st) <->
  In p (order_products st) /\ OrderProduct.order_id p = order_id.
Proof. unfold select_products. rewrite filter_In, of_order_true. reflexivity. Qed.

Lemma number_taken_insert (number : string) (st : Store) :
  number_taken number None st = true <-> In number (map Order.order_number (orders st)).
Proof.
  unfold number_taken. rewrite existsb_exists, in_map_iff.
  split; intros [o [H1 H2]]; exists o.
  - rewrite andb_true_r in H2. apply String.eqb_eq in H2. now split.
  - rewrite andb_true_r. split; [assumption | now apply String.eqb_eq].
Qed.

Lemma number_taken_update (number : string) (order_id : Z) (st : Store) :
  number_taken number (Some order_id) st = false <->
  forall o, In o (orders st) -> Order.order_number o = number -> Order.id o = order_id.
Proof.
  unfold number_taken. split.
  - intros H o Hin Hnum.
    destruct (Z.eq_dec (Order.id o) order_id) as [|Hne]; [assumption|].
    assert (existsb (fun o => String.eqb (Order.order_number o) number
                              && negb (Order.id o =? order_id)) (orders st) = true) as Ht.
    { apply existsb_exists. exists o. split; [assumption|].
      apply andb_true_iff. split; [now apply String.eqb_eq|].
      apply negb_true_iff. now apply Z.eqb_neq. }
    congruence.
  - intros H.
    destruct (existsb _ (orders st)) eqn:E; [|reflexivity].
    apply existsb_exists in E as [o [Hin Ht]].
    apply andb_true_iff in Ht as [Hnum Hid].
    apply String.eqb_eq in Hnum. apply negb_true_iff, Z.eqb_neq in Hid.
    now apply H in Hin.
Qed.

(* ===================================================================== *)
(** ** The rows a request inserts *)
(* ===================================================================== *)

Section NewRows.

Variable order_id : Z.

Lemma new_rows_length (next : Z) (items : list OrderProductSchema.t) :
  List.length (new_rows order_id next items) = List.length items.
Proof.
  revert next. induction items as [|i items IH]; intros next; simpl; [reflexivity|].
  now rewrite IH.
Qed.

Lemma new_rows_bounds (next : Z) (items : list OrderProductSchema.t) :
  Forall (fun p => next <= OrderProduct.id p < next + Z.of_nat (List.length items))
         (new_rows order_id next items).
Proof.
  revert next. induction items as [|i items IH]; intros next; simpl new_rows.
  - constructor.
  - constructor.
    + cbn [OrderProduct.id List.length]. lia.
    + eapply Forall_impl; [|apply IH]. cbn [List.length]. intros p Hp. lia.
Qed.

Lemma new_rows_NoDup (next : Z) (items : list OrderProductSchema.t) :
  NoDup (map OrderProduct.id (new_rows order_id next items)).
Proof.
  revert next. induction items as [|i items IH]; intros next; simpl.
  - constructor.
  - constructor; [|apply IH].
    intros Hin. apply in_map_iff in Hin as [p [Hid Hp]].
    pose proof (new_rows_bounds (next + 1) items) as Hb.
    rewrite Forall_forall in Hb. apply Hb in Hp. lia.
Qed.

Lemma new_rows_order_id (next : Z) (items : list OrderProductSchema.t) :
  Forall (fun p => OrderProduct.order_id p = order_id) (new_rows order_id next items).
Proof.
  revert next. induction items as [|i items IH]; intros next; simpl; constructor.
  - reflexivity.
  - apply IH.
Qed.

Lemma new_rows_lines (next : Z) (items : list OrderProductSchema.t) :
  map row_line (new_rows order_id next items) = map item_line items.
Proof.
  revert next. induction items as [|i items IH]; intros next; simpl; [reflexivity|].
  now rewrite IH.
Qed.

Lemma new_rows_selected (next : Z) (items : list OrderProductSchema.t) :
  filter (of_order order_id) (new_rows order_id next items) = new_rows order_id next items.
Proof.
  revert next. induction items as [|i items IH]; intros next; simpl; [reflexivity|].
  unfold of_order at 1. cbn [OrderProduct.order_id]. rewrite Z.eqb_refl. now rewrite IH.
Qed.

End NewRows.

(* ===================================================================== *)
(** ** Running a handler *)
(* ===================================================================== *)

(** The cases a handler distinguishes in the list of refused COMMITs. *)
Ltac commit_once fs := destruct fs as [|[] ?].
Ltac commit_twice fs := destruct fs as [|[] [|[] ?]].

(** The cases of [create_order] and of [update_order]: is the order row
    refused, is a line item refused, which COMMIT is refused. *)
Ltac create_order_cases order st fs :=
  let Hrefused := fresh "Hrefused" in
  let Hnull := fresh "Hnull" in
  let Hfree := fresh "Hfree" in
  let Hitems := fresh "Hitems" in
  destruct (is_null (OrderSchema.final_price order)
            || number_taken (OrderSchema.order_number order) None st) eqn:Hrefused;
  [ | apply orb_false_iff in Hrefused as [Hnull Hfree];
      destruct (first_refusal (OrderSchema.products order)) eqn:Hitems;
      commit_twice fs; cbn [tl] ].

Ltac update_order_cases order_id order_data st fs :=
  let Hrefused := fresh "Hrefused" in
  let Hnull := fresh "Hnull" in
  let Hfree := fresh "Hfree" in
  let Hitems := fresh "Hitems" in
  destruct (is_null (OrderSchema.final_price order_data)
            || number_taken (OrderSchema.order_number order_data) (Some order_id) st)
    eqn:Hrefused;
  [ | apply orb_false_iff in Hrefused as [Hnull Hfree];
      destruct (first_refusal (OrderSchema.products order_data)) eqn:Hitems;
      commit_once fs ].

(** A loop whose body only reads returns the image of the list and leaves
    the session as it found it. *)
Lemma for_each_read {A B : Type} (body : A -> M B) (g : A -> B) (xs : list A) (s : Session) :
  (forall x, body x s = (Return (g x), s)) ->
  for_each body xs s = (Return (map g xs), s).
Proof.
  intros Hbody. induction xs as [|x xs IH]; simpl; [reflexivity|].
  unfold bind. rewrite Hbody, IH. reflexivity.
Qed.

Lemma item_refusal_none (item : OrderProductSchema.t) :
  item_refusal item = None ->
  negb (fits_integer (OrderProductSchema.product_id item)
        && fits_integer (OrderProductSchema.quantity item)) = false
  /\ is_null (OrderProductSchema.unit_price item) = false.
Proof.
  unfold item_refusal.
  destruct (negb _); [discriminate|].
  destruct (is_null _); [discriminate|]. now split.
Qed.

Lemma first_refusal_none (items : list OrderProductSchema.t) :
  first_refusal items = None <-> accepted_items items = true.
Proof.
  unfold accepted_items. induction items as [|i items IH]; simpl; [tauto|].
  unfold item_refusal, accepted_item.
  destruct (fits_integer (OrderProductSchema.product_id i)
            && fits_integer (OrderProductSchema.quantity i)); simpl;
    [|split; discriminate].
  destruct (is_null (OrderProductSchema.unit_price i)); simpl;
    [split; discriminate | exact IH].
Qed.

Lemma first_refusal_some (items : list OrderProductSchema.t) :
  accepted_items items = false <-> exists e, first_refusal items = Some e.
Proof.
  rewrite <- not_true_iff_false, <- first_refusal_none.
  destruct (first_refusal items) as [e|]; split.
  - intros _. now exists e.
  - discriminate.
  - intros H. now elim H.
  - intros [e H]. discriminate.
Qed.

(** What a refused line item raises is IntegrityError or OverflowError. *)
Lemma first_refusal_error (items : list OrderProductSchema.t) (e : Error) :
  first_refusal items = Some e -> e = IntegrityError \/ e = OverflowError.
Proof.
  induction items as [|i items IH]; simpl; [discriminate|].
  unfold item_refusal.
  destruct (negb _); [intros [= <-]; now right|].
  destruct (is_null _); [intros [= <-]; now left | exact IH].
Qed.

(** One [session.add(OrderProduct(...))] whose values the store takes. *)
Lemma add_OrderProduct_ok (order_id : Z) (item : OrderProductSchema.t) (s : Session) :
  item_refusal item = None ->
  existsb (has_id order_id) (orders (tx s)) = true ->
  add_OrderProduct order_id
                   (OrderProductSchema.product_id item)
                   (OrderProductSchema.quantity item)
                   (OrderProductSchema.unit_price item) s
  = (Return {| OrderProduct.id := order_product_seq (tx s);
               OrderProduct.order_id := order_id;
               OrderProduct.product_id := OrderProductSchema.product_id item;
               OrderProduct.quantity := OrderProductSchema.quantity item;
               OrderProduct.unit_price := OrderProductSchema.unit_price item |},
     {| db := db s;
        tx := append_products (new_rows order_id (order_product_seq (tx s)) [item]) (tx s);
        faults := faults s |}).
Proof.
  intros Hi Hex. apply item_refusal_none in Hi as [Hfit Hnull].
  unfold add_OrderProduct, execute, insert_product. now rewrite Hfit, Hnull, Hex.
Qed.

(** One [session.add(OrderProduct(...))] whose values the store refuses. *)
Lemma add_OrderProduct_refused (order_id : Z) (item : OrderProductSchema.t) (s : Session)
    (e : Error) :
  item_refusal item = Some e ->
  add_OrderProduct order_id
                   (OrderProductSchema.product_id item)
                   (OrderProductSchema.quantity item)
                   (OrderProductSchema.unit_price item) s
  = (Raised e, s).
Proof.
  unfold item_refusal, add_OrderProduct, execute, insert_product.
  destruct (negb _); [now intros [= <-]|].
  destruct (is_null _); [now intros [= <-] | discriminate].
Qed.

(** The loop of [session.add(OrderProduct(...))]: when the store takes the
    values of every line item and the order exists, every INSERT is
    accepted and the rows are [new_rows]. *)
Lemma for_each_add_products (order_id : Z) (items : list OrderProductSchema.t) (s : Session) :
  first_refusal items = None ->
  existsb (has_id order_id) (orders (tx s)) = true ->
  for_each
    (fun product =>
       add_OrderProduct order_id
                        (OrderProductSchema.product_id product)
                        (OrderProductSchema.quantity product)
                        (OrderProductSchema.unit_price product))
    items s
  = (Return (new_rows order_id (order_product_seq (tx s)) items),
     {| db := db s;
        tx := append_products (new_rows order_id (order_product_seq (tx s)) items) (tx s);
        faults := faults s |}).
Proof.
  revert s. induction items as [|i items IH]; intros s Hok Hex; simpl.
  - unfold ret, append_products. simpl. rewrite app_nil_r, Z.add_0_r.
    destruct s as [d [o p a b] f]. reflexivity.
  - simpl in Hok. destruct (item_refusal i) eqn:Hi; [discriminate|].
    unfold bind at 1. rewrite add_OrderProduct_ok by assumption.
    unfold bind at 1. rewrite IH by (assumption || (simpl; exact Hex)).
    simpl. unfold ret, append_products. simpl.
    rewrite <- app_assoc. simpl. rewrite new_rows_length.
    do 3 f_equal. lia.
Qed.

(** The same loop when the store refuses the values of a line item: the
    loop raises what the first such INSERT raises, and nothing is
    committed. *)
Lemma for_each_add_refused (order_id : Z) (items : list OrderProductSchema.t) (s : Session)
    (e : Error) :
  first_refusal items = Some e ->
  existsb (has_id order_id) (orders (tx s)) = true ->
  exists tx',
    for_each
      (fun product =>
         add_OrderProduct order_id
                          (OrderProductSchema.product_id product)
                          (OrderProductSchema.quantity product)
                          (OrderProductSchema.unit_price product))
      items s
    = (Raised e, {| db := db s; tx := tx'; faults := faults s |}).
Proof.
  revert s. induction items as [|i items IH]; intros s Hbad Hex; simpl in *;
    [discriminate|].
  destruct (item_refusal i) as [e'|] eqn:Hi.
  - injection Hbad as ->. exists (tx s).
    unfold bind. rewrite (add_OrderProduct_refused _ _ _ _ Hi). now destruct s.
  - unfold bind at 1. rewrite add_OrderProduct_ok by assumption.
    destruct (IH {| db := db s;
                    tx := append_products
                            (new_rows order_id (order_product_seq (tx s)) [i]) (tx s);
                    faults := faults s |} Hbad) as [tx' Htx]; [simpl; exact Hex|].
    exists tx'. unfold bind at 1. rewrite Htx. reflexivity.
Qed.

Lemma get_orders_run (fs : list bool) (st : Store) :
  get_session get_orders fs st = (Return (map (order_dict st) (orders st)), st).
Proof.
  unfold get_session, get_orders, exec_select_all_orders, query, bind. simpl.
  rewrite for_each_read with (g := order_dict st); reflexivity.
Qed.

Lemma get_order_run (order_id : Z) (fs : list bool) (st : Store) :
  get_session (get_order order_id) fs st =
  (match select_order order_id st with
   | Some o => Return (order_response st o)
   | None => not_found
   end, st).
Proof.
  unfold get_session, get_order, session_get, exec_select_products, query, bind. simpl.
  destruct (select_order order_id st) as [o|] eqn:E; simpl; [|reflexivity].
  apply select_order_some in E as [_ Hid].
  unfold ret, order_response. rewrite Hid. reflexivity.
Qed.

Lemma find_last_only {A : Type} (f : A -> bool) (l : list A) (x : A) :
  (forall y, In y l -> f y = false) -> f x = true -> find f (l ++ [x]) = Some x.
Proof.
  intros Hl Hx. induction l as [|a l IH]; simpl.
  - now rewrite Hx.
  - rewrite (Hl a (or_introl eq_refl)). apply IH. intros y Hy. apply Hl. now right.
Qed.

(** The key the store generates is carried by no row yet. *)
Lemma order_seq_fresh (st : Store) (o : Order.t) :
  wf_store st -> In o (orders st) -> has_id (order_seq st) o = false.
Proof.
  intros Hwf Hin. unfold has_id. apply Z.eqb_neq.
  pose proof (wf_order_seq st Hwf) as H. rewrite Forall_forall in H.
  apply H in Hin. lia.
Qed.

Lemma select_created_order (order : OrderSchema.t) (st : Store) :
  wf_store st ->
  select_order (order_seq st) (store_with_order order st) = Some (created_order order st).
Proof.
  intros Hwf. unfold select_order, store_with_order. simpl.
  apply find_last_only.
  - intros y Hy. now apply order_seq_fresh.
  - unfold has_id, created_order. simpl. apply Z.eqb_refl.
Qed.

(** [create_order], case by case: the INSERT of the order is refused, the
    first COMMIT is refused, a line item is refused, the second COMMIT is
    refused, or everything is accepted. *)
Lemma create_order_run (order : OrderSchema.t) (fs : list bool) (st : Store) :
  wf_store st ->
  get_session (create_order order) fs st =
  if is_null (OrderSchema.final_price order)
     || number_taken (OrderSchema.order_number order) None st
  then (Raised IntegrityError, st)
  else
    match fs with
    | true :: _ => (Raised OperationalError, st)
    | _ =>
        match first_refusal (OrderSchema.products order) with
        | Some e => (Raised e, store_with_order order st)
        | None =>
            match tl fs with
            | true :: _ => (Raised OperationalError, store_with_order order st)
            | _ => (Return (created_dict order st), store_created order st)
            end
        end
    end.
Proof.
  intros Hwf.
  assert (forall f,
    get_session
      (fun s =>
         (db_order <- session_refresh (created_order order st) ;;
          db_products <-
            for_each
              (fun product =>
                 add_OrderProduct (Order.id db_order)
                                  (OrderProductSchema.product_id product)
                                  (OrderProductSchema.quantity product)
                                  (OrderProductSchema.unit_price product))
              (OrderSchema.products order) ;;
          commit ;;
          ret (VDict [ ("id", VInt (Order.id db_order));
                       ("order_number", VStr (Order.order_number db_order));
                       ("date", VStr (Order.date db_order));
                       ("final_price", VFloat (Order.final_price db_order));
                       ("products", VList (map VObj db_products)) ]))
           {| db := db s; tx := tx s; faults := f |})
      f (store_with_order order st)
    = match first_refusal (OrderSchema.products order) with
      | Some e => (Raised e, store_with_order order st)
      | None =>
          match f with
          | true :: _ => (Raised OperationalError, store_with_order order st)
          | _ => (Return (created_dict order st), store_created order st)
          end
      end) as Hrest.
  { intros f. unfold get_session. cbn [db tx].
    unfold bind at 1. unfold session_refresh, session_get, query, bind at 1.
    cbn [tx Order.id created_order]. rewrite (select_created_order order st Hwf).
    unfold ret at 1. unfold bind at 1.
    assert (existsb (has_id (order_seq st)) (orders (store_with_order order st)) = true)
      as Hex.
    { simpl. rewrite existsb_app. simpl. unfold has_id at 2. simpl.
      rewrite Z.eqb_refl. apply orb_true_r. }
    change (Order.id (created_order order st)) with (order_seq st).
    destruct (first_refusal (OrderSchema.products order)) as [e|] eqn:Hitems.
    - destruct (for_each_add_refused (order_seq st) (OrderSchema.products order)
                  {| db := store_with_order order st; tx := store_with_order order st;
                     faults := f |} e Hitems Hex) as [tx' Htx].
      rewrite Htx. reflexivity.
    - rewrite for_each_add_products by assumption.
      unfold bind, commit, ret, created_dict, store_created, created_products. simpl.
      commit_once f; reflexivity. }
  unfold get_session in *. unfold create_order.
  unfold bind at 1. unfold add_Order, execute, insert_order. simpl tx.
  destruct (is_null (OrderSchema.final_price order)
            || number_taken (OrderSchema.order_number order) None st); [reflexivity|].
  fold (created_order order st). fold (store_with_order order st).
  unfold bind at 1. unfold commit at 1. simpl faults.
  destruct fs as [|[] rest]; simpl; [| reflexivity |].
  - specialize (Hrest []). cbn [db tx] in Hrest. exact Hrest.
  - specialize (Hrest rest). cbn [db tx] in Hrest. exact Hrest.
Qed.

Section SetFields.

Variables (order_id : Z) (number : string) (price : float) (date : string).

Lemma set_fields_id (o : Order.t) :
  Order.id (set_fields order_id number price date o) = Order.id o.
Proof. unfold set_fields. now destruct (has_id order_id o). Qed.

Lemma set_fields_hit (o : Order.t) :
  Order.id o = order_id ->
  set_fields order_id number price date o =
  {| Order.id := order_id; Order.order_number := number;
     Order.date := date; Order.final_price := price |}.
Proof.
  intros Hid. unfold set_fields.
  rewrite (proj2 (has_id_true order_id o) Hid), Hid. reflexivity.
Qed.

Lemma set_fields_miss (o : Order.t) :
  Order.id o <> order_id -> set_fields order_id number price date o = o.
Proof.
  intros Hid. unfold set_fields.
  destruct (has_id order_id o) eqn:E; [|reflexivity].
  apply has_id_true in E. contradiction.
Qed.

Lemma map_id_set_fields (l : list Order.t) :
  map Order.id (map (set_fields order_id number price date) l) = map Order.id l.
Proof.
  rewrite map_map. apply map_ext. intros o. apply set_fields_id.
Qed.

Lemma find_map_set_fields (l : list Order.t) (o : Order.t) :
  find (has_id order_id) l = Some o ->
  find (has_id order_id) (map (set_fields order_id number price date) l)
  = Some (set_fields order_id number price date o).
Proof.
  induction l as [|a l IH]; simpl; [discriminate|].
  replace (has_id order_id (set_fields order_id number price date a))
    with (has_id order_id a) by (unfold has_id; now rewrite set_fields_id).
  destruct (has_id order_id a); [intros [= ->]; reflexivity | exact IH].
Qed.

End SetFields.

Lemma select_replaced_order (order_id : Z) (order_data : OrderSchema.t) (st : Store)
    (o : Order.t) :
  select_order order_id st = Some o ->
  select_order order_id (store_replaced order_id order_data st)
  = Some {| Order.id := order_id;
            Order.order_number := OrderSchema.order_number order_data;
            Order.date := OrderSchema.date order_data;
            Order.final_price := OrderSchema.final_price order_data |}.
Proof.
  intros Hsel. pose proof (select_order_some _ _ _ Hsel) as [_ Hid].
  unfold select_order in *. cbn [store_replaced append_products delete_products_of
                                 store_assigned orders].
  rewrite (find_map_set_fields _ _ _ _ _ _ Hsel). f_equal. now apply set_fields_hit.
Qed.

(** [update_order], case by case: no such order, the UPDATE is refused,
    a line item is refused, the COMMIT is refused, or the COMMIT is
    accepted. *)
Lemma update_order_run (order_id : Z) (order_data : OrderSchema.t) (fs : list bool)
    (st : Store) :
  get_session (update_order order_id order_data) fs st =
  match select_order order_id st with
  | None => (not_found, st)
  | Some _ =>
      if is_null (OrderSchema.final_price order_data)
         || number_taken (OrderSchema.order_number order_data) (Some order_id) st
      then (Raised IntegrityError, st)
      else
        match first_refusal (OrderSchema.products order_data) with
        | Some e => (Raised e, st)
        | None =>
            match fs with
            | true :: _ => (Raised OperationalError, st)
            | _ => (Return (replaced_response order_id order_data st),
                    store_replaced order_id order_data st)
            end
        end
  end.
Proof.
  unfold get_session, update_order.
  unfold bind at 1. unfold session_get at 1, query. cbn [tx].
  destruct (select_order order_id st) as [o|] eqn:Hsel; [|reflexivity].
  pose proof (select_order_some _ _ _ Hsel) as [Hin Hid].
  unfold bind at 1. unfold assign_Order, execute, update_order_row. cbn [tx].
  destruct (is_null (OrderSchema.final_price order_data)
            || number_taken (OrderSchema.order_number order_data) (Some order_id) st);
    [reflexivity|].
  fold (store_assigned order_id order_data st).
  unfold bind at 1. unfold query_delete_products, execute. cbn [tx db faults].
  assert (existsb (has_id order_id)
            (orders (delete_products_of order_id (store_assigned order_id order_data st)))
          = true) as Hex.
  { cbn [delete_products_of orders store_assigned].
    apply existsb_has_id. rewrite map_id_set_fields, <- Hid. now apply in_map. }
  destruct (first_refusal (OrderSchema.products order_data)) as [e|] eqn:Hitems.
  - destruct (for_each_add_refused order_id (OrderSchema.products order_data)
                {| db := st;
                   tx := delete_products_of order_id (store_assigned order_id order_data st);
                   faults := fs |} e Hitems Hex) as [tx' Htx].
    unfold bind at 1. rewrite Htx. reflexivity.
  - unfold bind at 1. rewrite for_each_add_products by assumption.
    cbn [tx db faults delete_products_of order_product_seq store_assigned].
    fold (replaced_products order_id order_data st).
    change {| orders := orders (store_assigned order_id order_data st);
              order_products :=
                filter (fun p => negb (of_order order_id p))
                       (order_products (store_assigned order_id order_data st));
              order_seq := order_seq (store_assigned order_id order_data st);
              order_product_seq :=
                order_product_seq (store_assigned order_id order_data st) |}
      with (delete_products_of order_id (store_assigned order_id order_data st)).
    fold (store_replaced order_id order_data st).
    pose proof (select_replaced_order order_id order_data st o Hsel) as Hre.
    rewrite <- Hid in Hre at 1.
    unfold bind at 1. unfold commit at 1. cbn [faults tx db].
    commit_once fs; cbv beta iota; [| reflexivity |];
      unfold session_refresh, session_get, query, bind; cbn [tx];
      rewrite Hre; reflexivity.
Qed.

(** Two rows of a table with the same key are the same row. *)
Lemma product_key_unique (l : list OrderProduct.t) (p q : OrderProduct.t) :
  NoDup (map OrderProduct.id l) -> In p l -> In q l ->
  OrderProduct.id p = OrderProduct.id q -> p = q.
Proof.
  induction l as [|a l IH]; simpl; intros Hnd Hp Hq Hid; [contradiction|].
  apply NoDup_cons_iff in Hnd as [Hnotin Hnd].
  destruct Hp as [->|Hp], Hq as [->|Hq].
  - reflexivity.
  - exfalso. apply Hnotin. rewrite Hid. now apply in_map.
  - exfalso. apply Hnotin. rewrite <- Hid. now apply in_map.
  - now apply IH.
Qed.

(** The loop of [session.delete(product)]. *)
Lemma for_each_delete_products (ps : list OrderProduct.t) (s : Session) :
  for_each session_delete_product ps s =
  (Return (map (fun _ => tt) ps),
   {| db := db s;
      tx := fold_left (fun st p => delete_product_row (OrderProduct.id p) st) ps (tx s);
      faults := faults s |}).
Proof.
  revert s. induction ps as [|p ps IH]; intros s; simpl.
  - destruct s; reflexivity.
  - unfold bind at 1. unfold session_delete_product at 1, execute.
    unfold bind at 1. rewrite IH. reflexivity.
Qed.

Lemma delete_rows_products (ps : list OrderProduct.t) (st : Store) :
  fold_left (fun st p => delete_product_row (OrderProduct.id p) st) ps st =
  {| orders := orders st;
     order_products :=
       filter (fun q => negb (existsb (fun p => OrderProduct.id q =? OrderProduct.id p) ps))
              (order_products st);
     order_seq := order_seq st;
     order_product_seq := order_product_seq st |}.
Proof.
  revert st. induction ps as [|p ps IH]; intros st; simpl.
  - destruct st as [o l a b]. simpl. f_equal.
    induction l as [|x l IHl]; simpl; [reflexivity | now rewrite <- IHl].
  - rewrite IH. unfold delete_product_row. simpl. f_equal.
    induction (order_products st) as [|x l IHl]; simpl; [reflexivity|].
    destruct (OrderProduct.id x =? OrderProduct.id p); simpl; [exact IHl|].
    destruct (existsb _ ps); simpl; [exact IHl | now rewrite IHl].
Qed.

(** Deleting the line items of an order one by one, by key, removes the
    line items of that order and no other row. *)
Lemma delete_selected_products (order_id : Z) (st : Store) :
  wf_store st ->
  fold_left (fun st p => delete_product_row (OrderProduct.id p) st)
            (select_products order_id st) st
  = delete_products_of order_id st.
Proof.
  intros Hwf. rewrite delete_rows_products. unfold delete_products_of. f_equal.
  apply filter_ext_in. intros q Hq. f_equal.
  destruct (of_order order_id q) eqn:E.
  - apply existsb_exists. exists q. split; [|apply Z.eqb_refl].
    apply select_products_In. split; [assumption | now apply of_order_true].
  - destruct (existsb _ (select_products order_id st)) eqn:Ex; [|reflexivity].
    apply existsb_exists in Ex as [p [Hp Hid]].
    apply select_products_In in Hp as [Hp Hord]. apply Z.eqb_eq in Hid.
    assert (q = p) as -> by (eapply product_key_unique; eauto; apply Hwf).
    apply of_order_true in Hord. congruence.
Qed.

Lemma no_product_left (order_id : Z) (l : list OrderProduct.t) :
  existsb (of_order order_id) (filter (fun p => negb (of_order order_id p)) l) = false.
Proof.
  induction l as [|p l IH]; simpl; [reflexivity|].
  destruct (of_order order_id p) eqn:E; simpl; [exact IH | now rewrite E].
Qed.

(** [delete_order], case by case: no such order, the COMMIT is refused, or
    the COMMIT is accepted. *)
Lemma delete_order_run (order_id : Z) (fs : list bool) (st : Store) :
  wf_store st ->
  get_session (delete_order order_id) fs st =
  match select_order order_id st with
  | None => (not_found, st)
  | Some _ =>
      match fs with
      | true :: _ => (Raised OperationalError, st)
      | _ => (Return deleted_message, store_deleted order_id st)
      end
  end.
Proof.
  intros Hwf. unfold get_session, delete_order.
  unfold bind at 1. unfold session_get at 1, query. cbn [tx].
  destruct (select_order order_id st) as [o|] eqn:Hsel; [|reflexivity].
  pose proof (select_order_some _ _ _ Hsel) as [Hin Hid].
  unfold bind at 1. unfold exec_select_products, query. cbn [tx].
  unfold bind at 1. rewrite for_each_delete_products. cbn [tx db faults].
  rewrite (delete_selected_products order_id st Hwf).
  unfold bind at 1. unfold session_delete_order, execute, delete_order_row.
  cbn [tx db faults delete_products_of order_products].
  rewrite Hid, no_product_left.
  cbn [orders order_seq order_product_seq delete_products_of].
  fold (store_deleted order_id st).
  unfold bind, commit, ret. cbn [faults tx db].
  commit_once fs; reflexivity.
Qed.

(* ===================================================================== *)
(** ** The constraints are kept *)
(* ===================================================================== *)

Lemma wf_empty_store : wf_store empty_store.
Proof. constructor; simpl; constructor. Qed.

Lemma wf_store_with_order (order : OrderSchema.t) (st : Store) :
  wf_store st ->
  number_taken (OrderSchema.order_number order) None st = false ->
  wf_store (store_with_order order st).
Proof.
  intros [Hpk Hnum Hppk Hseq Hpseq Hfk] Hfree.
  rewrite Forall_forall in Hseq.
  constructor; cbn [store_with_order orders order_products order_seq order_product_seq].
  - rewrite map_app. apply NoDup_app; [assumption | repeat constructor; intros [] |].
    intros k Hk [<-|[]]. apply in_map_iff in Hk as [o [Hid Ho]].
    apply Hseq in Ho. cbn [created_order Order.id] in Hid. lia.
  - rewrite map_app. apply NoDup_app; [assumption | repeat constructor; intros [] |].
    intros n Hn [<-|[]]. apply number_taken_insert in Hn.
    cbn [created_order Order.order_number] in Hn. congruence.
  - assumption.
  - apply Forall_app. split.
    + apply Forall_forall. intros o Ho. apply Hseq in Ho. lia.
    + repeat constructor. cbn [created_order Order.id]. lia.
  - assumption.
  - eapply Forall_impl; [|exact Hfk]. intros p Hp. cbv beta in Hp |- *.
    rewrite map_app. apply in_app_iff. now left.
Qed.

Lemma wf_append_products (order_id : Z) (items : list OrderProductSchema.t) (st : Store) :
  wf_store st ->
  In order_id (map Order.id (orders st)) ->
  wf_store (append_products (new_rows order_id (order_product_seq st) items) st).
Proof.
  intros [Hpk Hnum Hppk Hseq Hpseq Hfk] Hin.
  rewrite Forall_forall in Hpseq.
  pose proof (new_rows_bounds order_id (order_product_seq st) items) as Hb.
  rewrite Forall_forall in Hb.
  constructor; cbn [append_products orders order_products order_seq order_product_seq];
    try assumption.
  - rewrite map_app. apply NoDup_app; [assumption | apply new_rows_NoDup |].
    intros k Hk Hk'. apply in_map_iff in Hk as [p [Hid Hp]].
    apply in_map_iff in Hk' as [q [Hid' Hq]].
    apply Hpseq in Hp. apply Hb in Hq. lia.
  - apply Forall_app. split; apply Forall_forall; intros p Hp.
    + apply Hpseq in Hp. lia.
    + apply Hb in Hp. rewrite new_rows_length. lia.
  - apply Forall_app. split; [assumption|].
    eapply Forall_impl; [|apply new_rows_order_id]. intros p ->. exact Hin.
Qed.

Lemma wf_delete_products_of (order_id : Z) (st : Store) :
  wf_store st -> wf_store (delete_products_of order_id st).
Proof.
  intros [Hpk Hnum Hppk Hseq Hpseq Hfk].
  constructor; cbn [delete_products_of orders order_products order_seq order_product_seq];
    try assumption.
  - clear - Hppk. induction (order_products st) as [|p l IH]; simpl; [constructor|].
    apply NoDup_cons_iff in Hppk as [Hnotin Hnd].
    destruct (negb (of_order order_id p)); [|now apply IH].
    simpl. constructor; [|now apply IH].
    intros Hin. apply Hnotin. apply in_map_iff in Hin as [q [Hid Hq]].
    apply filter_In in Hq as [Hq _]. rewrite <- Hid. now apply in_map.
  - apply Forall_forall. intros p Hp. apply filter_In in Hp as [Hp _].
    rewrite Forall_forall in Hpseq. now apply Hpseq.
  - apply Forall_forall. intros p Hp. apply filter_In in Hp as [Hp _].
    rewrite Forall_forall in Hfk. now apply Hfk.
Qed.

(** The UPDATE keeps the numbers distinct when no other row holds the new
    number. *)
Lemma set_fields_numbers (order_id : Z) (number : string) (price : float) (date : string)
    (l : list Order.t) :
  NoDup (map Order.id l) ->
  NoDup (map Order.order_number l) ->
  (forall o, In o l -> Order.order_number o = number -> Order.id o = order_id) ->
  NoDup (map Order.order_number (map (set_fields order_id number price date) l)).
Proof.
  induction l as [|a l IH]; simpl; intros Hid Hnum Hother; [constructor|].
  apply NoDup_cons_iff in Hid as [Hida Hid].
  apply NoDup_cons_iff in Hnum as [Hnuma Hnum].
  constructor.
  - intros Hin. apply in_map_iff in Hin as [b' [Hb' Hin]].
    apply in_map_iff in Hin as [b [<- Hb]].
    destruct (Z.eq_dec (Order.id a) order_id) as [Ha|Ha];
      destruct (Z.eq_dec (Order.id b) order_id) as [Hb0|Hb0].
    + apply Hida. rewrite Ha, <- Hb0. now apply in_map.
    + rewrite (set_fields_miss _ _ _ _ _ Hb0) in Hb'.
      rewrite (set_fields_hit _ _ _ _ _ Ha) in Hb'. cbn [Order.order_number] in Hb'.
      apply Hb0. apply Hother; [now right | assumption].
    + rewrite (set_fields_hit _ _ _ _ _ Hb0) in Hb'.
      rewrite (set_fields_miss _ _ _ _ _ Ha) in Hb'. cbn [Order.order_number] in Hb'.
      apply Ha. apply Hother; [now left | congruence].
    + rewrite (set_fields_miss _ _ _ _ _ Hb0) in Hb'.
      rewrite (set_fields_miss _ _ _ _ _ Ha) in Hb'.
      apply Hnuma. rewrite <- Hb'. now apply in_map.
  - apply IH; try assumption. intros o Ho. apply Hother. now right.
Qed.

Lemma wf_store_assigned (order_id : Z) (order_data : OrderSchema.t) (st : Store) :
  wf_store st ->
  number_taken (OrderSchema.order_number order_data) (Some order_id) st = false ->
  wf_store (store_assigned order_id order_data st).
Proof.
  intros [Hpk Hnum Hppk Hseq Hpseq Hfk] Hfree.
  constructor; cbn [store_assigned orders order_products order_seq order_product_seq];
    try assumption.
  - now rewrite map_id_set_fields.
  - apply set_fields_numbers; try assumption. now apply number_taken_update.
  - apply Forall_map. eapply Forall_impl; [|exact Hseq].
    intros o Ho. cbv beta. now rewrite set_fields_id.
  - now rewrite map_id_set_fields.
Qed.

Lemma wf_store_deleted (order_id : Z) (st : Store) :
  wf_store st -> wf_store (store_deleted order_id st).
Proof.
  intros Hwf. pose proof (wf_delete_products_of order_id st Hwf) as [_ _ Hppk _ Hpseq _].
  destruct Hwf as [Hpk Hnum _ Hseq _ Hfk].
  cbn [delete_products_of order_products order_product_seq] in Hppk, Hpseq.
  assert (forall (B : Type) (f : Order.t -> B) (g : Order.t -> bool) (l : list Order.t),
             NoDup (map f l) -> NoDup (map f (filter g l))) as Hfilter.
  { intros B f g l. induction l as [|a l IH]; simpl; intros Hnd; [constructor|].
    apply NoDup_cons_iff in Hnd as [Hnotin Hnd].
    destruct (g a); [|now apply IH]. simpl. constructor; [|now apply IH].
    intros Hin. apply Hnotin. apply in_map_iff in Hin as [q [Hq Hin]].
    apply filter_In in Hin as [Hin _]. rewrite <- Hq. now apply in_map. }
  constructor; cbn [store_deleted orders order_products order_seq order_product_seq];
    try assumption.
  - now apply Hfilter.
  - now apply Hfilter.
  - apply Forall_forall. intros o Ho. apply filter_In in Ho as [Ho _].
    rewrite Forall_forall in Hseq. now apply Hseq.
  - apply Forall_forall. intros p Hp. apply filter_In in Hp as [Hp Hne].
    rewrite Forall_forall in Hfk. apply Hfk in Hp.
    apply in_map_iff in Hp as [o [Hid Ho]]. apply in_map_iff. exists o.
    split; [assumption|]. apply filter_In. split; [assumption|].
    apply negb_true_iff in Hne. apply negb_true_iff.
    unfold has_id, of_order in *. now rewrite Hid.
Qed.

Lemma wf_store_created (order : OrderSchema.t) (st : Store) :
  wf_store st ->
  number_taken (OrderSchema.order_number order) None st = false ->
  wf_store (store_created order st).
Proof.
  intros Hwf Hfree. unfold store_created, created_products.
  change (order_product_seq st) with (order_product_seq (store_with_order order st)).
  apply wf_append_products; [now apply wf_store_with_order|].
  cbn [store_with_order orders]. rewrite map_app. apply in_app_iff. right. now left.
Qed.

Lemma wf_store_replaced (order_id : Z) (order_data : OrderSchema.t) (st : Store) (o : Order.t) :
  wf_store st ->
  select_order order_id st = Some o ->
  number_taken (OrderSchema.order_number order_data) (Some order_id) st = false ->
  wf_store (store_replaced order_id order_data st).
Proof.
  intros Hwf Hsel Hfree. unfold store_replaced, replaced_products.
  change (order_product_seq st)
    with (order_product_seq (delete_products_of order_id (store_assigned order_id order_data st))).
  apply wf_append_products.
  - now apply wf_delete_products_of, wf_store_assigned.
  - cbn [delete_products_of store_assigned orders]. rewrite map_id_set_fields.
    apply select_order_some in Hsel as [Hin <-]. now apply in_map.
Qed.

Create HintDb store.
#[local] Hint Resolve wf_empty_store wf_store_with_order wf_store_created
  wf_store_replaced wf_store_deleted : store.

(** Whatever a request does, and whichever COMMIT the store refuses, the
    store it leaves satisfies the constraints of the schema. *)
Lemma create_order_wf (order : OrderSchema.t) (fs : list bool) (st : Store) :
  wf_store st -> wf_store (snd (get_session (create_order order) fs st)).
Proof.
  intros Hwf. rewrite create_order_run by assumption.
  create_order_cases order st fs; cbn [snd]; auto with store.
Qed.

Lemma update_order_wf (order_id : Z) (order_data : OrderSchema.t) (fs : list bool)
    (st : Store) :
  wf_store st -> wf_store (snd (get_session (update_order order_id order_data) fs st)).
Proof.
  intros Hwf. rewrite update_order_run.
  destruct (select_order order_id st) as [o|] eqn:Hsel; [|assumption].
  update_order_cases order_id order_data st fs; cbn [snd]; eauto with store.
Qed.

Lemma delete_order_wf (order_id : Z) (fs : list bool) (st : Store) :
  wf_store st -> wf_store (snd (get_session (delete_order order_id) fs st)).
Proof.
  intros Hwf. rewrite delete_order_run by assumption.
  destruct (select_order order_id st) as [o|]; [|assumption].
  commit_once fs; cbn [snd]; auto with store.
Qed.

Lemma post_orders_store (order : OrderSchema.t) (fs : list bool) (st : Store) :
  snd (post_orders order fs st) = snd (get_session (create_order order) fs st).
Proof.
  unfold post_orders. now destruct (get_session (create_order order) fs st).
Qed.

(** Every store the application can be in satisfies the constraints of
    the schema. *)
Lemma reachable_wf (st : Store) : reachable st -> wf_store st.
Proof.
  induction 1 as [|st r fs _ IH]; [apply wf_empty_store|].
  destruct r; cbn [serve].
  - now rewrite get_orders_run.
  - now rewrite get_order_run.
  - rewrite post_orders_store. now apply create_order_wf.
  - now apply update_order_wf.
  - now apply delete_order_wf.
Qed.

(* ===================================================================== *)
(** ** Failure of a COMMIT *)
(* ===================================================================== *)

(** [update_order] and [delete_order] commit once: whatever is raised, the
    store is the store the request found. *)
Lemma update_order_atomic (order_id : Z) (order_data : OrderSchema.t) (fs : list bool)
    (st st' : Store) (e : Error) :
  get_session (update_order order_id order_data) fs st = (Raised e, st') -> st' = st.
Proof.
  rewrite update_order_run.
  destruct (select_order order_id st); [|now intros [= _ <-]].
  update_order_cases order_id order_data st fs; intros [=]; congruence.
Qed.

Lemma delete_order_atomic (order_id : Z) (fs : list bool) (st st' : Store) (e : Error) :
  wf_store st ->
  get_session (delete_order order_id) fs st = (Raised e, st') -> st' = st.
Proof.
  intros Hwf. rewrite delete_order_run by assumption.
  destruct (select_order order_id st); [|now intros [= _ <-]].
  commit_once fs; intros [=]; congruence.
Qed.

(** [create_order] commits twice.  When the store accepts the first COMMIT
    and refuses the second, the order row stays without its line items. *)
Lemma create_order_second_commit (order : OrderSchema.t) (fs : list bool) (st : Store) :
  wf_store st ->
  is_null (OrderSchema.final_price order) = false ->
  number_taken (OrderSchema.order_number order) None st = false ->
  accepted_items (OrderSchema.products order) = true ->
  get_session (create_order order) (false :: true :: fs) st
  = (Raised OperationalError, store_with_order order st)
  /\ orders (store_with_order order st) = (orders st ++ [created_order order st])%list
  /\ order_products (store_with_order order st) = order_products st.
Proof.
  intros Hwf Hnull Hfree Hitems. apply first_refusal_none in Hitems.
  rewrite create_order_run by assumption. rewrite Hnull, Hfree, Hitems.
  repeat split.
Qed.

(** A [create_order] that raises left the store as it was, or left the
    order row alone in it, when a line item or the second COMMIT was
    refused. *)
Lemma create_order_raised (order : OrderSchema.t) (fs : list bool) (st st' : Store)
    (e : Error) :
  wf_store st ->
  get_session (create_order order) fs st = (Raised e, st') ->
  st' = st \/ st' = store_with_order order st.
Proof.
  intros Hwf. rewrite create_order_run by assumption.
  create_order_cases order st fs; intros [=]; subst; auto.
Qed.

(* ===================================================================== *)
(** ** The body of POST /orders *)
(* ===================================================================== *)

Lemma validate_all_objects (rows : list OrderProduct.t) :
  validate_all OrderProductSchema_validate (map VObj rows)
  = Some (map (fun p =>
                 {| OrderProductSchema.product_id := OrderProduct.product_id p;
                    OrderProductSchema.quantity := OrderProduct.quantity p;
                    OrderProductSchema.unit_price := OrderProduct.unit_price p;
                    OrderProductSchema.name := None |}) rows).
Proof.
  induction rows as [|p rows IH]; simpl; [reflexivity | now rewrite IH].
Qed.

Lemma response_model_created (order : OrderSchema.t) (st : Store) :
  response_model_OrderSchema (Return (created_dict order st))
  = Return (created_body order st).
Proof.
  unfold response_model_OrderSchema, created_dict, OrderSchema_validate.
  cbn [dict_get String.eqb Ascii.eqb Bool.eqb option_map as_str as_float].
  rewrite validate_all_objects.
  unfold OrderSchema_body, created_body. cbn [OrderSchema.order_number OrderSchema.date
    OrderSchema.final_price OrderSchema.products].
  rewrite map_map. reflexivity.
Qed.

(** [post_orders], case by case. *)
Lemma post_orders_run (order : OrderSchema.t) (fs : list bool) (st : Store) :
  wf_store st ->
  post_orders order fs st =
  if is_null (OrderSchema.final_price order)
     || number_taken (OrderSchema.order_number order) None st
  then (Raised IntegrityError, st)
  else
    match fs with
    | true :: _ => (Raised OperationalError, st)
    | _ =>
        match first_refusal (OrderSchema.products order) with
        | Some e => (Raised e, store_with_order order st)
        | None =>
            match tl fs with
            | true :: _ => (Raised OperationalError, store_with_order order st)
            | _ => (Return (created_body order st), store_created order st)
            end
        end
    end.
Proof.
  intros Hwf. unfold post_orders. rewrite create_order_run by assumption.
  create_order_cases order st fs; try reflexivity;
    now rewrite response_model_created.
Qed.

(** A body of POST /orders never has a key [id]. *)
Lemma post_orders_keys (order : OrderSchema.t) (fs : list bool) (st st' : Store)
    (body : Value) :
  wf_store st ->
  post_orders order fs st = (Return body, st') ->
  keys body = ["order_number"; "date"; "final_price"; "products"]
  /\ value_get "id" body = None.
Proof.
  intros Hwf. rewrite post_orders_run by assumption.
  create_order_cases order st fs; try discriminate;
    intros [= <- _]; split; reflexivity.
Qed.

(** The dict the handler itself returns does carry the generated keys. *)
Lemma create_order_dict_ids (order : OrderSchema.t) (fs : list bool) (st st' : Store)
    (d : Value) :
  wf_store st ->
  get_session (create_order order) fs st = (Return d, st') ->
  value_get "id" d = Some (VInt (order_seq st))
  /\ value_get "products" d = Some (VList (map VObj (created_products order st))).
Proof.
  intros Hwf. rewrite create_order_run by assumption.
  create_order_cases order st fs; try discriminate;
    intros [= <- _]; split; reflexivity.
Qed.

(* ===================================================================== *)
(** ** The sample stores *)
(* ===================================================================== *)

Lemma store_A1_created :
  get_session (create_order order_A1) reliable empty_store
  = (Return (created_dict order_A1 empty_store), store_A1).
Proof. reflexivity. Qed.

Lemma store_A1_A2_created :
  get_session (create_order order_A2) reliable store_A1
  = (Return (created_dict order_A2 store_A1), store_A1_A2).
Proof. reflexivity. Qed.

Lemma wf_store_A1 : wf_store store_A1.
Proof.
  change store_A1 with (snd (get_session (create_order order_A1) reliable empty_store)).
  apply create_order_wf, wf_empty_store.
Qed.

Lemma wf_store_A1_A2 : wf_store store_A1_A2.
Proof.
  change store_A1_A2 with (snd (get_session (create_order order_A2) reliable store_A1)).
  apply create_order_wf, wf_store_A1.
Qed.

(* ===================================================================== *)
(** ** Creating an order *)
(* ===================================================================== *)

(** C1.  Creation is meant to be one atomic unit: when a step of the
    insert sequence fails, no order row and no line-item row should stay.
    [create_order] commits the order row before it adds the line items.
    On a fresh database, with a store that accepts the first COMMIT and
    refuses the second, the request for [order_A1] raises and the order
    row is in the store, without its line item. *)
Theorem create_order_partial_failure :
  get_session (create_order order_A1) [false; true] empty_store
  = (Raised OperationalError, store_A1_alone)
  /\ orders store_A1_alone = [row_A1]
  /\ order_products store_A1_alone = []
  /\ orders empty_store = [].
Proof.
  pose proof (create_order_second_commit order_A1 [] empty_store wf_empty_store
                                          eq_refl eq_refl eq_refl) as [Hrun _].
  rewrite Hrun. repeat split.
Qed.

(** C2.  The response of a successful create should carry the generated
    id of the order and of every line item.  The route declares
    [response_model=OrderSchema]: on a fresh database the body sent for
    [order_A1] is [body_A1], which has no key [id], and whose one line
    item has no key [id] either, while the order got id 1 and the line
    item got id 1 in the store. *)
Theorem post_orders_body_without_ids :
  post_orders order_A1 reliable empty_store = (Return body_A1, store_A1)
  /\ value_get "id" body_A1 = None
  /\ keys body_A1 = ["order_number"; "date"; "final_price"; "products"]
  /\ value_get "products" body_A1
     = Some (VList [ VDict [ ("product_id", VInt 1); ("quantity", VInt 2);
                             ("unit_price", VFloat 9.99%float); ("name", VNone) ] ])
  /\ map Order.id (orders store_A1) = [1]
  /\ map OrderProduct.id (order_products store_A1) = [1].
Proof.
  split.
  - rewrite post_orders_run by apply wf_empty_store. reflexivity.
  - repeat split.
Qed.

(* ===================================================================== *)
(** ** Reading *)
(* ===================================================================== *)

(** C10.  Reading is pure with respect to the store: after [get_orders],
    and after [get_order] whether it returns or raises, the store is the
    store the request found. *)
Theorem reads_leave_store_unchanged (st : Store) (fs : list bool) (order_id : Z) :
  snd (get_session get_orders fs st) = st
  /\ snd (get_session (get_order order_id) fs st) = st.
Proof.
  rewrite get_orders_run, get_order_run. split; reflexivity.
Qed.

(** C8.  [get_orders] returns one entry per stored order, in the order of
    the order table, and an empty list when no order is stored.  The
    entry of an order is a dict of five keys: [id], [order_number],
    [date] and [final_price] of the order, and under [products] one dict
    per line item whose [order_id] is the id of the order, for each such
    row of the line-item table once and in the order of the table; the
    dict of a line item has five keys and holds its [id], [order_id],
    [product_id], [quantity] and [unit_price]. *)
Theorem get_orders_spec (st : Store) (fs : list bool) :
  exists entries,
    get_session get_orders fs st = (Return entries, st)
    /\ List.length entries = List.length (orders st)
    /\ Forall2
         (fun o entry =>
            List.length (keys entry) = 5%nat
            /\ value_get "id" entry = Some (VInt (Order.id o))
            /\ value_get "order_number" entry = Some (VStr (Order.order_number o))
            /\ value_get "date" entry = Some (VStr (Order.date o))
            /\ value_get "final_price" entry = Some (VFloat (Order.final_price o))
            /\ exists dicts,
                 value_get "products" entry = Some (VList dicts)
                 /\ Forall2
                      (fun p d =>
                         List.length (keys d) = 5%nat
                         /\ value_get "id" d = Some (VInt (OrderProduct.id p))
                         /\ value_get "order_id" d = Some (VInt (OrderProduct.order_id p))
                         /\ value_get "product_id" d
                            = Some (VInt (OrderProduct.product_id p))
                         /\ value_get "quantity" d = Some (VInt (OrderProduct.quantity p))
                         /\ value_get "unit_price" d
                            = Some (VFloat (OrderProduct.unit_price p)))
                      (filter (fun p => OrderProduct.order_id p =? Order.id o)
                              (order_products st))
                      dicts)
         (orders st) entries
    /\ (orders st = [] -> entries = []).
Proof.
  exists (map (order_dict st) (orders st)). rewrite get_orders_run.
  split; [reflexivity|]. split; [apply length_map|]. split.
  - induction (orders st) as [|o l IH]; simpl; constructor; [|exact IH].
    do 5 (split; [reflexivity|]).
    exists (map OrderProduct_dict (select_products (Order.id o) st)).
    split; [reflexivity|]. unfold select_products, of_order.
    induction (filter _ (order_products st)) as [|p ps IHp]; simpl; constructor;
      [repeat split | exact IHp].
  - intros ->. reflexivity.
Qed.



(* ===================================================================== *)
(** ** Creating, then reading *)
(* ===================================================================== *)

Lemma filter_none {A : Type} (f : A -> bool) (l : list A) :
  (forall x, In x l -> f x = false) -> filter f l = [].
Proof.
  induction l as [|a l IH]; simpl; intros H; [reflexivity|].
  rewrite (H a (or_introl eq_refl)). apply IH. intros x Hx. apply H. now right.
Qed.

(** No line item references the key the store will generate next. *)
Lemma no_product_of_next_order (st : Store) (p : OrderProduct.t) :
  wf_store st -> In p (order_products st) -> of_order (order_seq st) p = false.
Proof.
  intros Hwf Hp. unfold of_order. apply Z.eqb_neq. intros Heq.
  pose proof (wf_foreign_key st Hwf) as Hfk. rewrite Forall_forall in Hfk.
  apply Hfk in Hp. apply in_map_iff in Hp as [o [Hid Ho]].
  pose proof (wf_order_seq st Hwf) as Hseq. rewrite Forall_forall in Hseq.
  apply Hseq in Ho. lia.
Qed.

Lemma select_created_products (order : OrderSchema.t) (st : Store) :
  wf_store st ->
  select_products (order_seq st) (store_created order st) = created_products order st.
Proof.
  intros Hwf. unfold select_products, store_created, append_products, store_with_order.
  cbn [order_products]. rewrite filter_app.
  rewrite filter_none by (intros p Hp; now apply no_product_of_next_order).
  apply new_rows_selected.
Qed.

Lemma get_created_order (order : OrderSchema.t) (fs : list bool) (st : Store) :
  wf_store st ->
  get_session (get_order (order_seq st)) fs (store_created order st)
  = (Return {| OrderResponse.id := order_seq st;
               OrderResponse.order_number := OrderSchema.order_number order;
               OrderResponse.date := OrderSchema.date order;
               OrderResponse.final_price := OrderSchema.final_price order;
               OrderResponse.products := created_products order st |},
     store_created order st).
Proof.
  intros Hwf. rewrite get_order_run.
  replace (select_order (order_seq st) (store_created order st))
    with (Some (created_order order st))
    by (symmetry; now apply select_created_order).
  unfold order_response. cbn [created_order Order.id Order.order_number Order.date
                              Order.final_price].
  now rewrite select_created_products.
Qed.

(** A successful [create_order] returned [created_dict] and left
    [store_created]. *)
Lemma create_order_returned (order : OrderSchema.t) (fs : list bool) (st st' : Store)
    (d : Value) :
  wf_store st ->
  get_session (create_order order) fs st = (Return d, st') ->
  number_taken (OrderSchema.order_number order) None st = false
  /\ d = created_dict order st /\ st' = store_created order st.
Proof.
  intros Hwf. rewrite create_order_run by assumption.
  create_order_cases order st fs; try discriminate;
    intros [= <- <-]; repeat split; assumption.
Qed.

(** C4.  Create, then get: after a successful [create_order] for a
    request with N line items, [get_order] on the generated id returns
    the [order_number], [date] and [final_price] of the request and
    exactly N line items, with the [product_id], [quantity] and
    [unit_price] of the request in the order of the request, each under
    a key that no line item had before and that no other returned item
    has; the generated order id was the id of no order before. *)
Theorem create_then_get (st : Store) (order : OrderSchema.t) (fs : list bool)
    (d : Value) (st' : Store) :
  wf_store st ->
  get_session (create_order order) fs st = (Return d, st') ->
  exists order_id,
    value_get "id" d = Some (VInt order_id)
    /\ ~ In order_id (map Order.id (orders st))
    /\ forall fs', exists resp,
         get_session (get_order order_id) fs' st' = (Return resp, st')
         /\ OrderResponse.id resp = order_id
         /\ OrderResponse.order_number resp = OrderSchema.order_number order
         /\ OrderResponse.date resp = OrderSchema.date order
         /\ OrderResponse.final_price resp = OrderSchema.final_price order
         /\ List.length (OrderResponse.products resp)
            = List.length (OrderSchema.products order)
         /\ map row_line (OrderResponse.products resp)
            = map item_line (OrderSchema.products order)
         /\ Forall (fun p => OrderProduct.order_id p = order_id)
                   (OrderResponse.products resp)
         /\ NoDup (map OrderProduct.id (OrderResponse.products resp))
         /\ forall p, In p (OrderResponse.products resp) ->
                      ~ In (OrderProduct.id p) (map OrderProduct.id (order_products st)).
Proof.
  intros Hwf Hrun.
  apply create_order_returned in Hrun as [Hfree [-> ->]]; [|assumption].
  exists (order_seq st). split; [reflexivity|]. split.
  - intros Hin. apply in_map_iff in Hin as [o [Hid Ho]].
    pose proof (wf_order_seq st Hwf) as Hseq. rewrite Forall_forall in Hseq.
    apply Hseq in Ho. lia.
  - intros fs'. eexists. split; [now apply get_created_order|].
    cbn [OrderResponse.id OrderResponse.order_number OrderResponse.date
         OrderResponse.final_price OrderResponse.products].
    do 4 (split; [reflexivity|]). unfold created_products.
    split; [apply new_rows_length|].
    split; [apply new_rows_lines|].
    split; [apply new_rows_order_id|].
    split; [apply new_rows_NoDup|].
    intros p Hp Hin. apply in_map_iff in Hin as [q [Hid Hq]].
    pose proof (wf_product_seq st Hwf) as Hpseq. rewrite Forall_forall in Hpseq.
    apply Hpseq in Hq.
    pose proof (new_rows_bounds (order_seq st) (order_product_seq st)
                                (OrderSchema.products order)) as Hb.
    rewrite Forall_forall in Hb. apply Hb in Hp. lia.
Qed.

Lemma create_then_get_witness :
  exists order_id,
    value_get "id" (created_dict order_A2 store_A1) = Some (VInt order_id)
    /\ ~ In order_id (map Order.id (orders store_A1))
    /\ forall fs', exists resp,
         get_session (get_order order_id) fs' store_A1_A2 = (Return resp, store_A1_A2)
         /\ OrderResponse.id resp = order_id
         /\ OrderResponse.order_number resp = OrderSchema.order_number order_A2
         /\ OrderResponse.date resp = OrderSchema.date order_A2
         /\ OrderResponse.final_price resp = OrderSchema.final_price order_A2
         /\ List.length (OrderResponse.products resp)
            = List.length (OrderSchema.products order_A2)
         /\ map row_line (OrderResponse.products resp)
            = map item_line (OrderSchema.products order_A2)
         /\ Forall (fun p => OrderProduct.order_id p = order_id)
                   (OrderResponse.products resp)
         /\ NoDup (map OrderProduct.id (OrderResponse.products resp))
         /\ forall p, In p (OrderResponse.products resp) ->
                      ~ In (OrderProduct.id p) (map OrderProduct.id (order_products store_A1)).
Proof.
  apply (create_then_get store_A1 order_A2 reliable
                         (created_dict order_A2 store_A1) store_A1_A2 wf_store_A1).
  reflexivity.
Defined.

(** C5.  Two creates with one [order_number]: when the first succeeded,
    the second raises the store's IntegrityError (the Conflict of the
    specification) and inserts nothing, whatever its line items and
    whichever COMMIT the store would refuse; the order numbers stored
    are pairwise distinct before and after it. *)
Theorem create_same_number_conflict (st : Store) (first second : OrderSchema.t)
    (fs1 fs2 : list bool) (body : Value) (st1 : Store) :
  wf_store st ->
  OrderSchema.order_number second = OrderSchema.order_number first ->
  post_orders first fs1 st = (Return body, st1) ->
  post_orders second fs2 st1 = (Raised IntegrityError, st1)
  /\ get_session (create_order second) fs2 st1 = (Raised IntegrityError, st1)
  /\ NoDup (map Order.order_number (orders st1))
  /\ List.length (filter (fun o => String.eqb (Order.order_number o)
                                               (OrderSchema.order_number first))
                         (orders st1)) = 1%nat.
Proof.
  intros Hwf Hnum Hrun.
  assert (number_taken (OrderSchema.order_number first) None st = false
          /\ st1 = store_created first st) as [Hfree ->].
  { rewrite post_orders_run in Hrun by assumption.
    create_order_cases first st fs1; try discriminate; inversion Hrun; now split. }
  pose proof (wf_store_created first st Hwf Hfree) as Hwf1.
  assert (number_taken (OrderSchema.order_number second) None (store_created first st) = true)
    as Htaken.
  { rewrite Hnum. apply number_taken_insert.
    cbn [store_created append_products store_with_order orders].
    rewrite map_app. apply in_app_iff. right. now left. }
  rewrite post_orders_run, create_order_run by assumption.
  rewrite Htaken, orb_true_r.
  do 3 (split; [reflexivity || apply Hwf1|]).
  cbn [store_created append_products store_with_order orders].
  rewrite filter_app, filter_none.
  - cbn [filter created_order Order.order_number]. now rewrite String.eqb_refl.
  - intros o Ho. apply String.eqb_neq. intros Heq.
    assert (number_taken (OrderSchema.order_number first) None st = true) as Ht.
    { apply number_taken_insert. rewrite <- Heq. now apply in_map. }
    congruence.
Qed.

Lemma create_same_number_conflict_witness :
  post_orders order_A1 [true] store_A1 = (Raised IntegrityError, store_A1)
  /\ get_session (create_order order_A1) [true] store_A1 = (Raised IntegrityError, store_A1)
  /\ NoDup (map Order.order_number (orders store_A1))
  /\ List.length (filter (fun o => String.eqb (Order.order_number o)
                                               (OrderSchema.order_number order_A1))
                         (orders store_A1)) = 1%nat.
Proof.
  apply (create_same_number_conflict empty_store order_A1 order_A1 reliable [true]
                                     body_A1 store_A1 wf_empty_store eq_refl).
  reflexivity.
Defined.

(* ===================================================================== *)
(** ** Replacing an order *)
(* ===================================================================== *)





(** A successful [update_order] returned [replaced_response] and left
    [store_replaced]; the order existed and the store took the request. *)
Lemma update_order_returned (order_id : Z) (order_data : OrderSchema.t) (fs : list bool)
    (st st' : Store) (resp : OrderResponse.over Value) :
  get_session (update_order order_id order_data) fs st = (Return resp, st') ->
  (exists o, select_order order_id st = Some o)
  /\ is_null (OrderSchema.final_price order_data) = false
  /\ number_taken (OrderSchema.order_number order_data) (Some order_id) st = false
  /\ first_refusal (OrderSchema.products order_data) = None
  /\ accepts_commit fs = true
  /\ resp = replaced_response order_id order_data st
  /\ st' = store_replaced order_id order_data st.
Proof.
  rewrite update_order_run.
  destruct (select_order order_id st) as [o|]; [|discriminate].
  update_order_cases order_id order_data st fs; try discriminate;
    intros [= <- <-]; (split; [now exists o|]); repeat split; assumption.
Qed.

(** [update_order] returns when the order exists and the store takes the
    request and the COMMIT. *)
Lemma update_order_returns (order_id : Z) (order_data : OrderSchema.t) (fs : list bool)
    (st : Store) (o : Order.t) :
  select_order order_id st = Some o ->
  is_null (OrderSchema.final_price order_data) = false ->
  number_taken (OrderSchema.order_number order_data) (Some order_id) st = false ->
  accepted_items (OrderSchema.products order_data) = true ->
  accepts_commit fs = true ->
  get_session (update_order order_id order_data) fs st
  = (Return (replaced_response order_id order_data st),
     store_replaced order_id order_data st).
Proof.
  intros Hsel Hnull Hfree Hitems Hfs. apply first_refusal_none in Hitems.
  rewrite update_order_run, Hsel, Hnull, Hfree, Hitems.
  commit_once fs; reflexivity || discriminate.
Qed.




(** C9.  [update_order] changes the id of no order.  Whatever the request
    and its outcome, the order table has the same ids in the same places
    afterwards; and when the call succeeds, the returned aggregate has
    [id] equal to [order_id] and the stored order under [order_id] is the
    order that was overwritten. *)
Theorem update_order_keeps_id (st : Store) (order_id : Z) (order_data : OrderSchema.t)
    (fs : list bool) (resp : OrderResponse.over Value) (st' : Store) :
  get_session (update_order order_id order_data) fs st = (Return resp, st') ->
  OrderResponse.id resp = order_id
  /\ map Order.id (orders st') = map Order.id (orders st)
  /\ exists o, select_order order_id st' = Some o
               /\ Order.id o = order_id
               /\ Order.order_number o = OrderSchema.order_number order_data.
Proof.
  intros Hrun.
  apply update_order_returned in Hrun as [[o Hsel] [_ [_ [_ [_ [-> ->]]]]]].
  split; [reflexivity|]. split.
  - cbn [store_replaced append_products delete_products_of store_assigned orders].
    apply map_id_set_fields.
  - eexists. split; [now apply (select_replaced_order _ _ _ o)|]. now split.
Qed.

Lemma update_order_keeps_id_witness :
  OrderResponse.id (replaced_response 2 order_A3 store_A1_A2) = 2
  /\ map Order.id (orders (store_replaced 2 order_A3 store_A1_A2))
     = map Order.id (orders store_A1_A2)
  /\ exists o, select_order 2 (store_replaced 2 order_A3 store_A1_A2) = Some o
               /\ Order.id o = 2
               /\ Order.order_number o = OrderSchema.order_number order_A3.
Proof.
  apply (update_order_keeps_id store_A1_A2 2 order_A3 reliable).
  reflexivity.
Defined.

(** Failed or not, [update_order] leaves the ids of the order table as
    they were. *)
Lemma update_order_ids (st : Store) (order_id : Z) (order_data : OrderSchema.t)
    (fs : list bool) :
  map Order.id (orders (snd (get_session (update_order order_id order_data) fs st)))
  = map Order.id (orders st).
Proof.
  rewrite update_order_run.
  destruct (select_order order_id st); [|reflexivity].
  update_order_cases order_id order_data st fs; cbn [snd]; try reflexivity;
    cbn [store_replaced append_products delete_products_of store_assigned orders];
    apply map_id_set_fields.
Qed.

(* ===================================================================== *)
(** ** Deleting an order *)
(* ===================================================================== *)



(* ===================================================================== *)
(** ** Further properties of the handlers *)
(* ===================================================================== *)

(** *** Reading one order after a write to another *)

Lemma get_order_same (k : Z) (fs fs' : list bool) (st st' : Store) :
  select_order k st' = select_order k st ->
  select_products k st' = select_products k st ->
  fst (get_session (get_order k) fs' st') = fst (get_session (get_order k) fs st).
Proof.
  intros Hrow Hitems. rewrite !get_order_run. cbn [fst]. rewrite Hrow.
  destruct (select_order k st) as [o|] eqn:Hsel; [|reflexivity].
  apply select_order_some in Hsel as [_ Hid].
  unfold order_response. now rewrite Hid, Hitems.
Qed.

Lemma find_app_miss {A : Type} (f : A -> bool) (l : list A) (x : A) :
  f x = false -> find f (l ++ [x]) = find f l.
Proof.
  intros Hx. induction l as [|a l IH]; simpl; [now rewrite Hx|].
  now destruct (f a).
Qed.

Lemma find_set_fields_other (order_id k : Z) (number : string) (price : float)
    (date : string) (l : list Order.t) :
  k <> order_id ->
  find (has_id k) (map (set_fields order_id number price date) l) = find (has_id k) l.
Proof.
  intros Hk. induction l as [|a l IH]; simpl; [reflexivity|].
  replace (has_id k (set_fields order_id number price date a)) with (has_id k a)
    by (unfold has_id; now rewrite set_fields_id).
  destruct (has_id k a) eqn:E; [|exact IH].
  apply has_id_true in E. rewrite set_fields_miss; [reflexivity | congruence].
Qed.

Lemma find_filter_other (order_id k : Z) (l : list Order.t) :
  k <> order_id ->
  find (has_id k) (filter (fun o => negb (has_id order_id o)) l) = find (has_id k) l.
Proof.
  intros Hk. induction l as [|a l IH]; simpl; [reflexivity|].
  destruct (has_id order_id a) eqn:E; simpl.
  - apply has_id_true in E.
    replace (has_id k a) with false; [exact IH|].
    symmetry. unfold has_id. apply Z.eqb_neq. congruence.
  - now rewrite IH.
Qed.

Lemma filter_filter_other (order_id k : Z) (l : list OrderProduct.t) :
  k <> order_id ->
  filter (of_order k) (filter (fun p => negb (of_order order_id p)) l)
  = filter (of_order k) l.
Proof.
  intros Hk. induction l as [|a l IH]; simpl; [reflexivity|].
  destruct (of_order order_id a) eqn:E; simpl.
  - apply of_order_true in E.
    replace (of_order k a) with false; [exact IH|].
    symmetry. unfold of_order. apply Z.eqb_neq. congruence.
  - now rewrite IH.
Qed.

Lemma new_rows_of_other (order_id k next : Z) (items : list OrderProductSchema.t) :
  k <> order_id -> filter (of_order k) (new_rows order_id next items) = [].
Proof.
  intros Hk. apply filter_none. intros p Hp.
  pose proof (new_rows_order_id order_id next items) as H.
  rewrite Forall_forall in H. apply H in Hp.
  unfold of_order. apply Z.eqb_neq. congruence.
Qed.

Lemma read_other_after_replace (order_id k : Z) (order_data : OrderSchema.t) (st : Store) :
  k <> order_id ->
  select_order k (store_replaced order_id order_data st) = select_order k st
  /\ select_products k (store_replaced order_id order_data st) = select_products k st.
Proof.
  intros Hk. unfold select_order, select_products.
  cbn [store_replaced append_products delete_products_of store_assigned orders
       order_products].
  split; [now apply find_set_fields_other|].
  rewrite filter_app, filter_filter_other by assumption.
  unfold replaced_products. rewrite new_rows_of_other by assumption. apply app_nil_r.
Qed.

Lemma read_other_after_delete (order_id k : Z) (st : Store) :
  k <> order_id ->
  select_order k (store_deleted order_id st) = select_order k st
  /\ select_products k (store_deleted order_id st) = select_products k st.
Proof.
  intros Hk. unfold select_order, select_products. cbn [store_deleted orders order_products].
  split; [now apply find_filter_other | now apply filter_filter_other].
Qed.

Lemma read_other_after_insert (order : OrderSchema.t) (k : Z) (st : Store) :
  k <> order_seq st ->
  select_order k (store_with_order order st) = select_order k st
  /\ select_products k (store_with_order order st) = select_products k st
  /\ select_order k (store_created order st) = select_order k st
  /\ select_products k (store_created order st) = select_products k st.
Proof.
  intros Hk.
  assert (find (has_id k) (orders st ++ [created_order order st])
          = find (has_id k) (orders st)) as Hrow.
  { apply find_app_miss. unfold has_id, created_order. cbn [Order.id].
    apply Z.eqb_neq. congruence. }
  unfold select_order, select_products.
  cbn [store_created append_products store_with_order orders order_products].
  repeat split; try assumption.
  rewrite filter_app. unfold created_products.
  rewrite new_rows_of_other by assumption. apply app_nil_r.
Qed.

(** X9.  [update_order] on one order leaves the reading of every other
    order as it was: whatever the request and its outcome, [get_order k]
    for [k] other than [order_id] gives afterwards what it gave before,
    and the order table has as many rows. *)
Theorem update_order_frame (st : Store) (order_id k : Z) (order_data : OrderSchema.t)
    (fs fs1 fs2 : list bool) :
  k <> order_id ->
  fst (get_session (get_order k) fs1
         (snd (get_session (update_order order_id order_data) fs st)))
  = fst (get_session (get_order k) fs2 st)
  /\ List.length (orders (snd (get_session (update_order order_id order_data) fs st)))
     = List.length (orders st).
Proof.
  intros Hk. rewrite update_order_run.
  assert (List.length (orders (store_replaced order_id order_data st))
          = List.length (orders st)) as Hlen.
  { cbn [store_replaced append_products delete_products_of store_assigned orders].
    apply length_map. }
  pose proof (read_other_after_replace order_id k order_data st Hk) as [Hrow Hitems].
  destruct (select_order order_id st);
    [|split; [now apply get_order_same | reflexivity]].
  update_order_cases order_id order_data st fs; cbn [snd]; split;
    solve [ now apply get_order_same | reflexivity | exact Hlen ].
Qed.

Lemma update_order_frame_witness :
  fst (get_session (get_order 1) reliable
         (snd (get_session (update_order 2 order_A3) reliable store_A1_A2)))
  = fst (get_session (get_order 1) reliable store_A1_A2)
  /\ List.length (orders (snd (get_session (update_order 2 order_A3) reliable store_A1_A2)))
     = List.length (orders store_A1_A2).
Proof.
  apply (update_order_frame store_A1_A2 2 1 order_A3 reliable reliable reliable).
  lia.
Defined.

(** X10.  [delete_order] on one order leaves the reading of every other
    order as it was: whatever its outcome, [get_order k] for [k] other
    than [order_id] gives afterwards what it gave before. *)
Theorem delete_order_frame (st : Store) (order_id k : Z) (fs fs1 fs2 : list bool) :
  wf_store st ->
  k <> order_id ->
  fst (get_session (get_order k) fs1 (snd (get_session (delete_order order_id) fs st)))
  = fst (get_session (get_order k) fs2 st).
Proof.
  intros Hwf Hk. rewrite delete_order_run by assumption.
  pose proof (read_other_after_delete order_id k st Hk) as [Hrow Hitems].
  destruct (select_order order_id st); [|now apply get_order_same].
  commit_once fs; cbn [snd]; now apply get_order_same.
Qed.

Lemma delete_order_frame_witness :
  fst (get_session (get_order 1) reliable
         (snd (get_session (delete_order 2) reliable store_A1_A2)))
  = fst (get_session (get_order 1) reliable store_A1_A2).
Proof.
  apply (delete_order_frame store_A1_A2 2 1 reliable reliable reliable wf_store_A1_A2).
  lia.
Defined.

(** X8.  [create_order] touches no row that was there: whatever its
    outcome, and whichever COMMIT is refused, the rows of both tables
    stay, in their places, at the head of the tables, and [get_order] on
    the id of an order that existed gives what it gave before.  When the
    call returns, the order table has one row more and the line-item
    table as many rows more as the request has line items. *)
Theorem create_order_frame (st : Store) (order : OrderSchema.t) (fs : list bool) :
  wf_store st ->
  (exists new_orders new_items,
     orders (snd (get_session (create_order order) fs st))
     = (orders st ++ new_orders)%list
     /\ order_products (snd (get_session (create_order order) fs st))
        = (order_products st ++ new_items)%list
     /\ forall d, fst (get_session (create_order order) fs st) = Return d ->
                  List.length new_orders = 1%nat
                  /\ List.length new_items = List.length (OrderSchema.products order))
  /\ forall o fs1 fs2, In o (orders st) ->
       fst (get_session (get_order (Order.id o)) fs1
              (snd (get_session (create_order order) fs st)))
       = fst (get_session (get_order (Order.id o)) fs2 st).
Proof.
  intros Hwf. rewrite create_order_run by assumption. split.
  - create_order_cases order st fs; cbn [snd fst];
      try (exists [], []; rewrite !app_nil_r; repeat split; discriminate);
      try (exists [created_order order st], []; cbn [store_with_order orders
             order_products]; rewrite app_nil_r; repeat split; discriminate);
      (exists [created_order order st], (created_products order st);
       cbn [store_created append_products store_with_order orders order_products];
       split; [reflexivity|]; split; [reflexivity|]; intros d _;
       split; [reflexivity | apply new_rows_length]).
  - intros o fs1 fs2 Ho.
    assert (Order.id o <> order_seq st) as Hk.
    { pose proof (wf_order_seq st Hwf) as Hseq. rewrite Forall_forall in Hseq.
      apply Hseq in Ho. lia. }
    pose proof (read_other_after_insert order (Order.id o) st Hk) as [H1 [H2 [H3 H4]]].
    create_order_cases order st fs; cbn [snd]; now apply get_order_same.
Qed.

Lemma create_order_frame_witness :
  (exists new_orders new_items,
     orders (snd (get_session (create_order order_A2) reliable store_A1))
     = (orders store_A1 ++ new_orders)%list
     /\ order_products (snd (get_session (create_order order_A2) reliable store_A1))
        = (order_products store_A1 ++ new_items)%list
     /\ forall d, fst (get_session (create_order order_A2) reliable store_A1) = Return d ->
                  List.length new_orders = 1%nat
                  /\ List.length new_items = List.length (OrderSchema.products order_A2))
  /\ forall o fs1 fs2, In o (orders store_A1) ->
       fst (get_session (get_order (Order.id o)) fs1
              (snd (get_session (create_order order_A2) reliable store_A1)))
       = fst (get_session (get_order (Order.id o)) fs2 store_A1).
Proof.
  apply (create_order_frame store_A1 order_A2 reliable wf_store_A1).
Defined.

(** *** Constraints, in every store the application reaches *)

(** X1.  In every store the application can reach from a fresh database,
    whatever the requests and whichever COMMITs were refused on the way,
    order ids are pairwise distinct, order numbers are pairwise distinct,
    line-item ids are pairwise distinct, and every line item belongs to
    an order that is stored. *)
Theorem reachable_constraints (st : Store) :
  reachable st ->
  NoDup (map Order.id (orders st))
  /\ NoDup (map Order.order_number (orders st))
  /\ NoDup (map OrderProduct.id (order_products st))
  /\ forall p, In p (order_products st) ->
               exists o, In o (orders st) /\ Order.id o = OrderProduct.order_id p.
Proof.
  intros Hr. apply reachable_wf in Hr as [Hpk Hnum Hppk _ _ Hfk].
  repeat split; try assumption.
  intros p Hp. rewrite Forall_forall in Hfk. apply Hfk in Hp.
  apply in_map_iff in Hp as [o [Hid Ho]]. now exists o.
Qed.

Lemma reachable_constraints_witness :
  NoDup (map Order.id (orders store_A1_A2))
  /\ NoDup (map Order.order_number (orders store_A1_A2))
  /\ NoDup (map OrderProduct.id (order_products store_A1_A2))
  /\ forall p, In p (order_products store_A1_A2) ->
               exists o, In o (orders store_A1_A2) /\ Order.id o = OrderProduct.order_id p.
Proof.
  apply (reachable_constraints store_A1_A2).
  change store_A1_A2
    with (serve (POST_orders order_A2) reliable
                (serve (POST_orders order_A1) reliable empty_store)).
  apply reachable_serve, reachable_serve, reachable_fresh.
Defined.

(** *** All or nothing *)


(** X3.  [delete_order] is all or nothing, on every store, constrained
    or not: either the call returns its message or the store is the store
    the call found. *)
Theorem delete_order_all_or_nothing (st : Store) (order_id : Z) (fs : list bool) :
  (exists msg, fst (get_session (delete_order order_id) fs st) = Return msg)
  \/ snd (get_session (delete_order order_id) fs st) = st.
Proof.
  destruct (get_session (delete_order order_id) fs st) as [r st'] eqn:E.
  cbn [fst snd]. revert E.
  unfold get_session, delete_order.
  unfold bind at 1. unfold session_get at 1, query. cbn [tx].
  destruct (select_order order_id st) as [o|]; [|intros [= <- <-]; now right].
  unfold bind at 1. unfold exec_select_products, query. cbn [tx].
  unfold bind at 1. rewrite for_each_delete_products. cbn [tx db faults].
  unfold bind at 1. unfold session_delete_order, execute. cbn [tx db faults].
  destruct (delete_order_row (Order.id o) _) as [e|st1]; [intros [= <- <-]; now right|].
  unfold bind, commit, ret. cbn [faults tx db].
  commit_once fs; intros [= <- <-];
    solve [ now right | left; eexists; reflexivity ].
Qed.

(** *** What each handler raises, and when *)



(** X5.  [create_order] returns exactly when the [order_number] of the
    request is free, the store takes the values of the request and the
    store accepts both COMMITs.  It raises IntegrityError whenever the
    number is already stored, and whenever [final_price] is a NaN,
    whichever COMMIT the store would refuse.  It raises nothing but
    IntegrityError, OverflowError and OperationalError. *)
Theorem create_order_errors (st : Store) (order : OrderSchema.t) (fs : list bool) :
  wf_store st ->
  ((exists d, fst (get_session (create_order order) fs st) = Return d)
   <-> ~ In (OrderSchema.order_number order) (map Order.order_number (orders st))
       /\ is_null (OrderSchema.final_price order) = false
       /\ accepted_items (OrderSchema.products order) = true
       /\ accepts_commit fs = true /\ accepts_commit (tl fs) = true)
  /\ (In (OrderSchema.order_number order) (map Order.order_number (orders st)) ->
      fst (get_session (create_order order) fs st) = Raised IntegrityError)
  /\ (is_null (OrderSchema.final_price order) = true ->
      fst (get_session (create_order order) fs st) = Raised IntegrityError)
  /\ forall e, fst (get_session (create_order order) fs st) = Raised e ->
               e = IntegrityError \/ e = OverflowError \/ e = OperationalError.
Proof.
  intros Hwf. rewrite create_order_run by assumption.
  rewrite <- number_taken_insert, <- first_refusal_none.
  destruct (is_null (OrderSchema.final_price order)) eqn:Hnull;
    destruct (number_taken (OrderSchema.order_number order) None st) eqn:Hfree;
    cbn [orb fst].
  - split; [split; [intros [d H]; discriminate | intros [H _]; now elim H]|].
    repeat split; try reflexivity. intros e [= <-]. now left.
  - split; [split; [intros [d H]; discriminate | intros [_ [H _]]; discriminate]|].
    repeat split; try reflexivity; try discriminate. intros e [= <-]. now left.
  - split; [split; [intros [d H]; discriminate | intros [H _]; now elim H]|].
    repeat split; try reflexivity; try discriminate. intros e [= <-]. now left.
  - destruct (first_refusal (OrderSchema.products order)) as [e0|] eqn:Hitems.
    + pose proof (first_refusal_error _ _ Hitems) as He0.
      split; [|split; [discriminate|split; [discriminate|]]].
      * commit_twice fs; cbn [fst]; split;
          solve [ intros [d H]; discriminate
                | intros [_ [_ [H _]]]; discriminate ].
      * commit_twice fs; cbn [fst]; intros e [= <-]; tauto.
    + split; [|split; [discriminate|split; [discriminate|]]].
      * commit_twice fs; cbn [fst tl accepts_commit]; split;
          solve [ intros [d H]; discriminate
                | intros [_ [_ [_ [H1 H2]]]]; discriminate
                | intros _; repeat split; discriminate
                | intros _; eexists; reflexivity ].
      * commit_twice fs; cbn [fst tl]; intros e [= <-]; tauto.
Qed.

Lemma create_order_errors_witness :
  ((exists d, fst (get_session (create_order order_A3_huge) reliable store_A1) = Return d)
   <-> ~ In (OrderSchema.order_number order_A3_huge) (map Order.order_number (orders store_A1))
       /\ is_null (OrderSchema.final_price order_A3_huge) = false
       /\ accepted_items (OrderSchema.products order_A3_huge) = true
       /\ accepts_commit reliable = true /\ accepts_commit (tl reliable) = true)
  /\ (In (OrderSchema.order_number order_A3_huge) (map Order.order_number (orders store_A1)) ->
      fst (get_session (create_order order_A3_huge) reliable store_A1)
      = Raised IntegrityError)
  /\ (is_null (OrderSchema.final_price order_A3_huge) = true ->
      fst (get_session (create_order order_A3_huge) reliable store_A1)
      = Raised IntegrityError)
  /\ forall e, fst (get_session (create_order order_A3_huge) reliable store_A1) = Raised e ->
               e = IntegrityError \/ e = OverflowError \/ e = OperationalError.
Proof.
  apply (create_order_errors store_A1 order_A3_huge reliable wf_store_A1).
Defined.




(** *** After a create whose second COMMIT was refused *)

(** X4.  When [create_order] fails after its first COMMIT, because the
    store refuses the values of a line item or refuses the second COMMIT,
    the call raises; the order is then stored and [get_order] returns it
    with an empty list of line items; and the same request sent again
    raises IntegrityError, whatever the store does. *)
Theorem create_order_retry (st : Store) (order : OrderSchema.t) (fs : list bool) :
  wf_store st ->
  ~ In (OrderSchema.order_number order) (map Order.order_number (orders st)) ->
  is_null (OrderSchema.final_price order) = false ->
  accepts_commit fs = true ->
  accepted_items (OrderSchema.products order) = false
  \/ accepts_commit (tl fs) = false ->
  exists e st1,
    get_session (create_order order) fs st = (Raised e, st1)
    /\ (forall fs1,
          get_session (get_order (order_seq st)) fs1 st1
          = (Return {| OrderResponse.id := order_seq st;
                       OrderResponse.order_number := OrderSchema.order_number order;
                       OrderResponse.date := OrderSchema.date order;
                       OrderResponse.final_price := OrderSchema.final_price order;
                       OrderResponse.products := [] |}, st1))
    /\ forall fs2,
         get_session (create_order order) fs2 st1 = (Raised IntegrityError, st1).
Proof.
  intros Hwf Hfree Hnull Hfs Hfail.
  assert (number_taken (OrderSchema.order_number order) None st = false) as Hnt.
  { destruct (number_taken _ None st) eqn:E; [|reflexivity].
    apply number_taken_insert in E. contradiction. }
  assert (exists e,
            get_session (create_order order) fs st
            = (Raised e, store_with_order order st)) as [e Hrun].
  { rewrite create_order_run by assumption. rewrite Hnull, Hnt. cbn [orb].
    destruct (first_refusal (OrderSchema.products order)) as [e0|] eqn:Hitems.
    - exists e0. commit_once fs; reflexivity || discriminate.
    - apply first_refusal_none in Hitems. destruct Hfail as [H|H]; [congruence|].
      exists OperationalError. commit_twice fs; reflexivity || discriminate. }
  exists e, (store_with_order order st).
  split; [exact Hrun|]. split.
  - intros fs1. rewrite get_order_run, (select_created_order order st Hwf).
    unfold order_response. cbn [created_order Order.id Order.order_number Order.date
                                Order.final_price].
    unfold select_products. cbn [store_with_order order_products].
    rewrite filter_none by (intros p Hp; now apply no_product_of_next_order).
    reflexivity.
  - intros fs2. rewrite create_order_run by now apply wf_store_with_order.
    replace (number_taken (OrderSchema.order_number order) None (store_with_order order st))
      with true; [now rewrite orb_true_r|].
    symmetry. apply number_taken_insert. cbn [store_with_order orders].
    rewrite map_app. apply in_app_iff. right. now left.
Qed.

Lemma create_order_retry_witness :
  exists e st1,
    get_session (create_order order_A3_huge) reliable store_A1 = (Raised e, st1)
    /\ (forall fs1,
          get_session (get_order (order_seq store_A1)) fs1 st1
          = (Return {| OrderResponse.id := order_seq store_A1;
                       OrderResponse.order_number := OrderSchema.order_number order_A3_huge;
                       OrderResponse.date := OrderSchema.date order_A3_huge;
                       OrderResponse.final_price := OrderSchema.final_price order_A3_huge;
                       OrderResponse.products := [] |}, st1))
    /\ forall fs2,
         get_session (create_order order_A3_huge) fs2 st1 = (Raised IntegrityError, st1).
Proof.
  apply (create_order_retry store_A1 order_A3_huge reliable wf_store_A1).
  - simpl. intros [H|[]]. discriminate.
  - reflexivity.
  - reflexivity.
  - left. reflexivity.
Defined.

(** *** Replacing an order that keeps its number *)

Lemma order_number_unique (l : list Order.t) (a b : Order.t) :
  NoDup (map Order.order_number l) -> In a l -> In b l ->
  Order.order_number a = Order.order_number b -> a = b.
Proof.
  induction l as [|x l IH]; simpl; intros Hnd Ha Hb Heq; [contradiction|].
  apply NoDup_cons_iff in Hnd as [Hnotin Hnd].
  destruct Ha as [->|Ha], Hb as [->|Hb].
  - reflexivity.
  - exfalso. apply Hnotin. rewrite Heq. now apply in_map.
  - exfalso. apply Hnotin. rewrite <- Heq. now apply in_map.
  - now apply IH.
Qed.

(** X7.  A replace that keeps the [order_number] the order already has is
    never refused by the unique index: on a store that satisfies the
    constraints, when the store takes the values of the request and
    accepts the COMMIT, [update_order] returns the id and the number of
    the order and the [date] and [final_price] of the request. *)
Theorem update_order_same_number (st : Store) (order_id : Z) (order_data : OrderSchema.t)
    (o : Order.t) (fs : list bool) :
  wf_store st ->
  In o (orders st) ->
  Order.id o = order_id ->
  OrderSchema.order_number order_data = Order.order_number o ->
  is_null (OrderSchema.final_price order_data) = false ->
  accepted_items (OrderSchema.products order_data) = true ->
  accepts_commit fs = true ->
  exists resp st',
    get_session (update_order order_id order_data) fs st = (Return resp, st')
    /\ OrderResponse.id resp = order_id
    /\ OrderResponse.order_number resp = Order.order_number o
    /\ OrderResponse.date resp = OrderSchema.date order_data
    /\ OrderResponse.final_price resp = OrderSchema.final_price order_data.
Proof.
  intros Hwf Hin Hid Hnum Hnull Hitems Hfs.
  exists (replaced_response order_id order_data st),
         (store_replaced order_id order_data st).
  split.
  - apply (update_order_returns _ _ _ _ o); try assumption.
    + now apply select_order_unique.
    + apply number_taken_update. intros o' Ho' Heq. rewrite Hnum in Heq.
      now rewrite (order_number_unique _ _ _ (wf_order_number st Hwf) Ho' Hin Heq).
  - cbn [replaced_response OrderResponse.id OrderResponse.order_number OrderResponse.date
         OrderResponse.final_price].
    repeat split. exact Hnum.
Qed.

Lemma update_order_same_number_witness :
  exists resp st',
    get_session (update_order 1 order_A1) reliable store_A1_A2 = (Return resp, st')
    /\ OrderResponse.id resp = 1
    /\ OrderResponse.order_number resp = Order.order_number row_A1
    /\ OrderResponse.date resp = OrderSchema.date order_A1
    /\ OrderResponse.final_price resp = OrderSchema.final_price order_A1.
Proof.
  apply (update_order_same_number store_A1_A2 1 order_A1 row_A1 reliable wf_store_A1_A2).
  - simpl. now left.
  - reflexivity.
  - reflexivity.
  - reflexivity.
  - reflexivity.
  - reflexivity.
Defined.

(** *** The list and the single read agree *)

(** X11.  [get_orders] and [get_order] agree: on a store that satisfies
    the constraints, the entry [get_orders] gives for an order has the
    [id], [order_number], [date] and [final_price] that [get_order]
    returns for the id of that order, and under [products] the
    [product.dict()] of the line items [get_order] returns, in the same
    order. *)
Theorem get_orders_agrees_with_get_order (st : Store) (fs fs' : list bool) :
  wf_store st ->
  exists entries,
    get_session get_orders fs st = (Return entries, st)
    /\ Forall2
         (fun o entry =>
            exists resp,
              get_session (get_order (Order.id o)) fs' st = (Return resp, st)
              /\ entry
                 = VDict [ ("id", VInt (OrderResponse.id resp));
                           ("order_number", VStr (OrderResponse.order_number resp));
                           ("date", VStr (OrderResponse.date resp));
                           ("final_price", VFloat (OrderResponse.final_price resp));
                           ("products",
                            VList (map OrderProduct_dict (OrderResponse.products resp))) ])
         (orders st) entries.
Proof.
  intros Hwf. exists (map (order_dict st) (orders st)).
  split; [apply get_orders_run|].
  assert (forall l, (forall o, In o l -> In o (orders st)) ->
            Forall2
              (fun o entry =>
                 exists resp,
                   get_session (get_order (Order.id o)) fs' st = (Return resp, st)
                   /\ entry
                      = VDict [ ("id", VInt (OrderResponse.id resp));
                                ("order_number", VStr (OrderResponse.order_number resp));
                                ("date", VStr (OrderResponse.date resp));
                                ("final_price", VFloat (OrderResponse.final_price resp));
                                ("products",
                                 VList (map OrderProduct_dict
                                            (OrderResponse.products resp))) ])
              l (map (order_dict st) l)) as H.
  { induction l as [|o l IH]; intros Hsub; simpl; constructor.
    - exists (order_response st o). split; [|reflexivity].
      rewrite get_order_run.
      now rewrite (select_order_unique (Order.id o) st o Hwf (Hsub o (or_introl eq_refl))).
    - apply IH. intros o' Ho'. apply Hsub. now right. }
  apply H. auto.
Qed.

Lemma get_orders_agrees_with_get_order_witness :
  exists entries,
    get_session get_orders reliable store_A1_A2 = (Return entries, store_A1_A2)
    /\ Forall2
         (fun o entry =>
            exists resp,
              get_session (get_order (Order.id o)) reliable store_A1_A2
              = (Return resp, store_A1_A2)
              /\ entry
                 = VDict [ ("id", VInt (OrderResponse.id resp));
                           ("order_number", VStr (OrderResponse.order_number resp));
                           ("date", VStr (OrderResponse.date resp));
                           ("final_price", VFloat (OrderResponse.final_price resp));
                           ("products",
                            VList (map OrderProduct_dict (OrderResponse.products resp))) ])
         (orders store_A1_A2) entries.
Proof.
  apply (get_orders_agrees_with_get_order store_A1_A2 reliable reliable wf_store_A1_A2).
Defined.

(** *** After a delete *)

(** X12.  After a successful [delete_order], the id is gone and the
    number is free: on the store it leaves, [delete_order] and
    [update_order] on that id raise HTTPException 404 and change nothing,
    and [create_order] with the [order_number] of the deleted order
    returns when the store takes the values of the request and accepts
    its two COMMITs. *)
Theorem after_delete_order (st : Store) (order_id : Z) (o : Order.t) (fs : list bool) :
  wf_store st ->
  In o (orders st) ->
  Order.id o = order_id ->
  accepts_commit fs = true ->
  exists msg st',
    get_session (delete_order order_id) fs st = (Return msg, st')
    /\ (forall fs1,
          get_session (delete_order order_id) fs1 st'
          = (Raised (HTTPException 404 "Order not found"), st'))
    /\ (forall order_data fs1,
          get_session (update_order order_id order_data) fs1 st'
          = (Raised (HTTPException 404 "Order not found"), st'))
    /\ forall order fs1,
         OrderSchema.order_number order = Order.order_number o ->
         is_null (OrderSchema.final_price order) = false ->
         accepted_items (OrderSchema.products order) = true ->
         accepts_commit fs1 = true -> accepts_commit (tl fs1) = true ->
         exists d st'',
           get_session (create_order order) fs1 st' = (Return d, st'').
Proof.
  intros Hwf Hin Hid Hfs.
  exists deleted_message, (store_deleted order_id st).
  pose proof (wf_store_deleted order_id st Hwf) as Hwf'.
  assert (select_order order_id (store_deleted order_id st) = None) as Hgone.
  { apply select_order_none. intros o' Ho'. cbn [store_deleted orders] in Ho'.
    apply filter_In in Ho' as [_ Hne]. apply negb_true_iff in Hne.
    unfold has_id in Hne. now apply Z.eqb_neq in Hne. }
  split; [|split; [|split]].
  - rewrite delete_order_run, (select_order_unique _ _ _ Hwf Hin Hid) by assumption.
    commit_once fs; reflexivity || discriminate.
  - intros fs1. rewrite delete_order_run by assumption. now rewrite Hgone.
  - intros order_data fs1. rewrite update_order_run. now rewrite Hgone.
  - intros order fs1 Hnum Hnull Hitems Hfs1 Hfs1'.
    apply first_refusal_none in Hitems.
    rewrite create_order_run by assumption. rewrite Hnull, Hitems. cbn [orb].
    replace (number_taken (OrderSchema.order_number order) None
                          (store_deleted order_id st)) with false.
    + commit_twice fs1; try discriminate; eexists; eexists; reflexivity.
    + symmetry. destruct (number_taken _ None (store_deleted order_id st)) eqn:E;
        [|reflexivity].
      apply number_taken_insert in E. apply in_map_iff in E as [o' [Heq Ho']].
      cbn [store_deleted orders] in Ho'. apply filter_In in Ho' as [Ho' Hne].
      rewrite Hnum in Heq.
      rewrite (order_number_unique _ _ _ (wf_order_number st Hwf) Ho' Hin Heq) in Hne.
      apply negb_true_iff in Hne. unfold has_id in Hne. apply Z.eqb_neq in Hne.
      contradiction.
Qed.

Lemma after_delete_order_witness :
  exists msg st',
    get_session (delete_order 2) reliable store_A1_A2 = (Return msg, st')
    /\ (forall fs1,
          get_session (delete_order 2) fs1 st'
          = (Raised (HTTPException 404 "Order not found"), st'))
    /\ (forall order_data fs1,
          get_session (update_order 2 order_data) fs1 st'
          = (Raised (HTTPException 404 "Order not found"), st'))
    /\ forall order fs1,
         OrderSchema.order_number order = Order.order_number row_A2 ->
         is_null (OrderSchema.final_price order) = false ->
         accepted_items (OrderSchema.products order) = true ->
         accepts_commit fs1 = true -> accepts_commit (tl fs1) = true ->
         exists d st'',
           get_session (create_order order) fs1 st' = (Return d, st'').
Proof.
  apply (after_delete_order store_A1_A2 2 row_A2 reliable wf_store_A1_A2).
  - simpl. right. now left.
  - reflexivity.
  - reflexivity.
Defined.

(** *** The body of every POST /orders *)

Lemma created_body_echo (order_id next : Z) (items : list OrderProductSchema.t) :
  map (fun p =>
         VDict [ ("product_id", VInt (OrderProduct.product_id p));
                 ("quantity", VInt (OrderProduct.quantity p));
                 ("unit_price", VFloat (OrderProduct.unit_price p));
                 ("name", VNone) ])
      (new_rows order_id next items)
  = map (fun item =>
           VDict [ ("product_id", VInt (OrderProductSchema.product_id item));
                   ("quantity", VInt (OrderProductSchema.quantity item));
                   ("unit_price", VFloat (OrderProductSchema.unit_price item));
                   ("name", VNone) ])
        items.
Proof.
  revert next. induction items as [|i items IH]; intros next; simpl; [reflexivity|].
  now rewrite IH.
Qed.

(** X13.  The body of a successful POST /orders is the request sent
    back: [order_number], [date] and [final_price] of the request, and
    one object per line item of the request, in order, with its
    [product_id], [quantity] and [unit_price] and with [name] null, also
    for a line item the request named.  It has no other key: no id of the
    order, no id of a line item. *)
Theorem post_orders_echo (st : Store) (order : OrderSchema.t) (fs : list bool)
    (body : Value) (st' : Store) :
  wf_store st ->
  post_orders order fs st = (Return body, st') ->
  body
  = VDict [ ("order_number", VStr (OrderSchema.order_number order));
            ("date", VStr (OrderSchema.date order));
            ("final_price", VFloat (OrderSchema.final_price order));
            ("products",
             VList (map (fun item =>
                           VDict [ ("product_id", VInt (OrderProductSchema.product_id item));
                                   ("quantity", VInt (OrderProductSchema.quantity item));
                                   ("unit_price",
                                    VFloat (OrderProductSchema.unit_price item));
                                   ("name", VNone) ])
                        (OrderSchema.products order))) ].
Proof.
  intros Hwf. rewrite post_orders_run by assumption.
  create_order_cases order st fs; try discriminate;
    intros [= <- _]; unfold created_body, created_products;
    now rewrite created_body_echo.
Qed.

Lemma post_orders_echo_witness :
  created_body order_A2 store_A1
  = VDict [ ("order_number", VStr (OrderSchema.order_number order_A2));
            ("date", VStr (OrderSchema.date order_A2));
            ("final_price", VFloat (OrderSchema.final_price order_A2));
            ("products",
             VList (map (fun item =>
                           VDict [ ("product_id", VInt (OrderProductSchema.product_id item));
                                   ("quantity", VInt (OrderProductSchema.quantity item));
                                   ("unit_price",
                                    VFloat (OrderProductSchema.unit_price item));
                                   ("name", VNone) ])
                        (OrderSchema.products order_A2))) ].
Proof.
  apply (post_orders_echo store_A1 order_A2 reliable
                          (created_body order_A2 store_A1) store_A1_A2 wf_store_A1).
  reflexivity.
Defined.

(** *** The line items of a replaced order *)


